(** * DeepMITRE: the NetFlow validation pipeline and its rate-limited gateway

    A shallow embedding of [src/utils.py] and [src/app.py].

    - Python values are a small tagged union ([PyVal]); floats are exact
      rationals plus the three IEEE specials, which is all that the range
      checks of the validators look at.
    - Clock readings ([time.time()]) are rationals and the subtraction
      [now - t] is exact.
    - Python strings are sequences of code points below 256.
    - pandas objects live in a store ([heap]): [DataFrame.copy] allocates,
      [rename(..., inplace=True)] and [df[col] = ...] update in place.
      The pandas semantics is that of the 1.x / 2.x lines, where text read
      from a CSV file has dtype [object].
    - Two column names that become equal once lower-cased and trimmed put a
      frame outside the embedding ([sanitize_dataframe] is then [stuck]).
    - The Python standard library parsers the validators delegate to
      ([ipaddress.ip_address], [datetime.strptime], [float.__repr__]), what
      [requests] makes of the URL and the headers, the remote endpoint and
      [pd.read_json] are parameters of the development.  The JSON encoding
      of the request body, with its refusal of NaN and the infinities, is
      modelled. *)

From Stdlib Require Import ZArith QArith Lqa Lia Bool List Ascii String Sorted.
From stdpp Require Import base option list gmap.
From stdpp Require pretty.
Import ListNotations.

Local Open Scope Z_scope.

(** ** Exceptions and outcomes *)

(** The exceptions that leave a function of the program: the plain
    [Exception] of the limiter; what [requests] raises besides the
    [HTTPError] that [call_serve_api] handles itself, while it prepares the
    request ([MissingSchema], [InvalidURL], [InvalidHeader],
    [InvalidJSONError]), sends it ([ConnectionError]) or decodes the answer
    ([JSONDecodeError]); and the builtin [TypeError] and [ValueError] of the
    JSON encoder and of [pd.read_json]. *)
Inductive exn : Type :=
| Exception (msg : string)
| ConnectionError
| JSONDecodeError
| InvalidJSONError
| MissingSchema
| InvalidURL
| InvalidHeader
| TypeError
| ValueError.

Inductive outcome (R : Type) : Type :=
| Returned (r : R)
| Raised (e : exn).
Arguments Returned {R} r.
Arguments Raised {R} e.

(** ** utils.RateLimiter *)

Module RateLimiter.

(** [self.max_calls], [self.time_window], [self.calls]; the deque has its
    oldest entry at the head.  [self.lock] is held for the whole
    check-and-record block, which is therefore one atomic step here. *)
Record t : Type := mk {
  max_calls : Z;
  time_window : Z;
  calls : list Q
}.

(** [RateLimiter.__init__] *)
Definition init (max_calls time_window : Z) : t :=
  mk max_calls time_window [].

(** [while self.calls and now - self.calls[0] >= self.time_window:
       self.calls.popleft()] *)
Fixpoint evict (now : Q) (time_window : Z) (calls : list Q) : list Q :=
  match calls with
  | [] => []
  | c :: rest =>
      if Qle_bool (inject_Z time_window) (now - c)
      then evict now time_window rest
      else calls
  end.

Definition rate_limit_message : string :=
  "Rate limit exceeded. Please try again later.".

(** The critical section of [wrapper]: [inl] is the raised exception,
    [inr tt] means the attempt was admitted and recorded.  In both cases
    the limiter is returned as the block leaves it. *)
Definition critical_section (self : t) (now : Q) : (exn + unit) * t :=
  let calls1 := evict now (time_window self) (calls self) in
  if (max_calls self <=? Z.of_nat (List.length calls1))%Z
  then (inl (Exception rate_limit_message),
        mk (max_calls self) (time_window self) calls1)
  else (inr tt,
        mk (max_calls self) (time_window self) (calls1 ++ [now])).

(** The decorator's [wrapper] for a wrapped [func] that acts on a world
    [W] (for [call_serve_api], the log of requests sent).  [now] is the
    reading of [time.time()] taken inside the lock. *)
Definition wrapper {A B W : Type} (func : A -> W -> outcome B * W)
    (self : t) (now : Q) (args : A) (w : W) : outcome B * t * W :=
  match critical_section self now with
  | (inl e, self') => (Raised e, self', w)
  | (inr _, self') => let '(r, w') := func args w in (r, self', w')
  end.

(** States a limiter can be in: freshly constructed, or after any number
    of guarded calls at arbitrary clock readings. *)
Inductive reachable (mc tw : Z) : t -> Prop :=
| reach_init : reachable mc tw (init mc tw)
| reach_step self now :
    reachable mc tw self -> reachable mc tw (snd (critical_section self now)).




End RateLimiter.

(** [api_rate_limiter = RateLimiter(max_calls=100, time_window=60)] *)
Definition api_rate_limiter : RateLimiter.t := RateLimiter.init 100 60.

(** ** Python values *)

(** A binary64 value: the exact rational it denotes, or a special. *)
Inductive PyFloat : Type :=
| FNaN
| FInf (negative : bool)
| FFin (q : Q).

(** The objects a cell, a row label or a row entry can hold.  The last three
    are numpy scalars, which is what a row [Series] of a numeric dtype hands
    out. *)
Inductive PyVal : Type :=
| VNone
| VBool (b : bool)
| VInt (z : Z)
| VFloat (f : PyFloat)
| VStr (s : string)
| VNpBool (b : bool)
| VNpInt64 (z : Z)
| VNpFloat64 (f : PyFloat).

(** [isinstance(v, (int, float))]: [bool] is a subclass of [int] and
    [numpy.float64] a subclass of [float]; [numpy.int64] and [numpy.bool_]
    are neither. *)
Definition isinstance_int_float (v : PyVal) : bool :=
  match v with
  | VBool _ | VInt _ | VFloat _ | VNpFloat64 _ => true
  | VNone | VStr _ | VNpBool _ | VNpInt64 _ => false
  end.

(** The number a numeric object stands for in a comparison (Python compares
    [int] with [float] exactly). *)
Definition number (v : PyVal) : option PyFloat :=
  match v with
  | VBool b | VNpBool b => Some (FFin (if b then 1 else 0)%Q)
  | VInt z | VNpInt64 z => Some (FFin (inject_Z z))
  | VFloat f | VNpFloat64 f => Some f
  | VNone | VStr _ => None
  end.

(** [a <= b] on binary64 values; every comparison with NaN is false. *)
Definition float_le (a b : PyFloat) : bool :=
  match a, b with
  | FNaN, _ | _, FNaN => false
  | FInf true, _ => true
  | _, FInf false => true
  | FInf false, _ => false
  | _, FInf true => false
  | FFin x, FFin y => Qle_bool x y
  end.

(** [lo <= v] and [v <= hi] for an integer constant and a numeric object. *)
Definition int_le_val (lo : Z) (v : PyVal) : bool :=
  match number v with
  | Some x => float_le (FFin (inject_Z lo)) x
  | None => false
  end.

Definition val_le_int (v : PyVal) (hi : Z) : bool :=
  match number v with
  | Some x => float_le x (FFin (inject_Z hi))
  | None => false
  end.

(** [numpy] conversion of an [int64] to [float64]: round to nearest, ties to
    even, on a 53-bit significand. *)
Definition float_of_int64 (z : Z) : PyFloat :=
  let a := Z.abs z in
  let k := Z.log2 a - 52 in
  if k <=? 0 then FFin (inject_Z z)
  else
    let q := Z.shiftr a k in
    let r := a - Z.shiftl q k in
    let half := Z.shiftl 1 (k - 1) in
    let q' := if (half <? r) || ((half =? r) && Z.odd q) then q + 1 else q in
    FFin (inject_Z (Z.sgn z * Z.shiftl q' k)).

(** ** Text *)

Module Text.

Local Open Scope string_scope.

Definition code (c : ascii) : N := N_of_ascii c.

(** [str.isspace] on one code point below 256. *)
Definition is_space (c : ascii) : bool :=
  let n := code c in
  ((9 <=? n) && (n <=? 13) || (28 <=? n) && (n <=? 32)
   || (n =? 133) || (n =? 160))%N.

(** [str.lower] on one code point below 256: A-Z, and the Latin-1 capitals
    U+00C0..U+00DE except the multiplication sign U+00D7. *)
Definition lower_char (c : ascii) : ascii :=
  let n := code c in
  if ((65 <=? n) && (n <=? 90)
      || (192 <=? n) && (n <=? 222) && negb (n =? 215))%N
  then ascii_of_N (n + 32)
  else c.

(** [s.lower()] *)
Fixpoint lower (s : string) : string :=
  match s with
  | EmptyString => EmptyString
  | String c r => String (lower_char c) (lower r)
  end.

Fixpoint lstrip (s : string) : string :=
  match s with
  | EmptyString => EmptyString
  | String c r => if is_space c then lstrip r else s
  end.

Fixpoint rstrip (s : string) : string :=
  match s with
  | EmptyString => EmptyString
  | String c r =>
      match rstrip r with
      | EmptyString => if is_space c then EmptyString else String c EmptyString
      | r' => String c r'
      end
  end.

(** [s.strip()] *)
Definition strip (s : string) : string := rstrip (lstrip s).

(** [column.lower().strip()] *)
Definition normalize (column : string) : string := strip (lower column).

Definition lt_sign : ascii := "<"%char.
Definition gt_sign : ascii := ">"%char.

(** Does [s] contain a [>]? *)
Fixpoint has_gt (s : string) : bool :=
  match s with
  | EmptyString => false
  | String c r => Ascii.eqb c gt_sign || has_gt r
  end.

(** [re.sub(r'<[^>]*>', '', x)], as the scanner that the pattern amounts
    to.  Outside a match ([in_tag = false]) a [<] starts a match exactly
    when some [>] follows, because [[^>]*] then runs up to the first one;
    inside a match every character is dropped up to and including that
    [>].  A [<] that nothing closes is kept. *)
Fixpoint sub_tags (in_tag : bool) (s : string) : string :=
  match s with
  | EmptyString => EmptyString
  | String c r =>
      if in_tag then
        if Ascii.eqb c gt_sign then sub_tags false r else sub_tags true r
      else if Ascii.eqb c lt_sign && has_gt r then sub_tags true r
      else String c (sub_tags false r)
  end.

Definition strip_tags (x : string) : string := sub_tags false x.

(** The pattern [<[^>]*>] matches at the start of [s]. *)
Definition tag_at (s : string) : bool :=
  match s with
  | EmptyString => false
  | String c r => Ascii.eqb c lt_sign && has_gt r
  end.

(** [re.search(r'<[^>]*>', s) is not None] *)
Fixpoint has_tag (s : string) : bool :=
  match s with
  | EmptyString => false
  | String _ r => tag_at s || has_tag r
  end.

(** A string that does not begin with white space. *)
Definition no_lead (s : string) : Prop :=
  match s with
  | EmptyString => True
  | String c _ => is_space c = false
  end.

End Text.

(** ** pandas objects *)

(** A column with its dtype: [bool], [int64], [float64] or [object]. *)
Inductive Column : Type :=
| ColBool (v : list bool)
| ColInt64 (v : list Z)
| ColFloat64 (v : list PyFloat)
| ColObject (v : list PyVal).

(** A frame: its row labels and its labelled columns, in order.  In a
    well-formed frame every column is as long as the row index. *)
Record DataFrame : Type := mkDataFrame {
  index : list PyVal;
  series : list (string * Column)
}.

(** [df.columns] *)
Definition columns (df : DataFrame) : list string := map fst (series df).

Definition col_length (c : Column) : nat :=
  match c with
  | ColBool v => List.length v
  | ColInt64 v => List.length v
  | ColFloat64 v => List.length v
  | ColObject v => List.length v
  end.

Definition well_formed (df : DataFrame) : Prop :=
  Forall (fun nc => col_length (snd nc) = List.length (index df)) (series df).

Definition is_object (c : Column) : bool :=
  match c with ColObject _ => true | _ => false end.

(** The cells of a column as Python objects (what iterating the column, or
    casting it to [object], yields). *)
Definition objects (c : Column) : list PyVal :=
  match c with
  | ColBool v => map VBool v
  | ColInt64 v => map VInt v
  | ColFloat64 v => map VFloat v
  | ColObject v => v
  end.

(** The dtype of [df.values]: the common dtype of the columns.  pandas does
    not mix [bool] with numbers, such frames interleave to [object]. *)
Inductive row_dtype : Type := RObject | RBool | RInt64 | RFloat64.

Definition is_bool (c : Column) : bool :=
  match c with ColBool _ => true | _ => false end.

Definition is_int64 (c : Column) : bool :=
  match c with ColInt64 _ => true | _ => false end.

Definition interleaved_dtype (cols : list Column) : row_dtype :=
  if existsb is_object cols then RObject
  else if forallb is_bool cols then RBool
  else if existsb is_bool cols then RObject
  else if forallb is_int64 cols then RInt64
  else RFloat64.

(** One column of [df.values], cast to the common dtype. *)
Definition cast (dt : row_dtype) (c : Column) : list PyVal :=
  match dt, c with
  | RBool, ColBool v => map VNpBool v
  | RInt64, ColInt64 v => map VNpInt64 v
  | RFloat64, ColInt64 v => map (fun z => VNpFloat64 (float_of_int64 z)) v
  | RFloat64, ColFloat64 v => map VNpFloat64 v
  | _, _ => objects c
  end.

(** A row as [iterrows] yields it: a [Series] labelled by the column names. *)
Definition Row : Type := list (string * PyVal).

(** [df.iterrows()]: [zip(self.index, self.values)], each row of the values
    wrapped in a [Series] over [self.columns].  In a well-formed frame every
    column has a cell at every row position, and the default of [nth] is
    never taken. *)
Definition iterrows (df : DataFrame) : list (PyVal * Row) :=
  let dt := interleaved_dtype (map snd (series df)) in
  imap (fun i idx =>
          (idx, map (fun nc => (fst nc, nth i (cast dt (snd nc)) VNone))
                    (series df)))
       (index df).

(** [row[key]] on a row with distinct labels; [inl key] is the
    [KeyError(key)] of a label that is not there. *)
Fixpoint Series_getitem (row : Row) (key : string) : string + PyVal :=
  match row with
  | [] => inl key
  | (label, v) :: rest =>
      if String.eqb label key then inr v else Series_getitem rest key
  end.

(** [rename(columns={old: new})]: every label equal to [old] becomes [new]. *)
Definition rename (old new : string) (df : DataFrame) : DataFrame :=
  mkDataFrame (index df)
    (map (fun nc => (if String.eqb (fst nc) old then new else fst nc, snd nc))
         (series df)).

(** [df[col] = values] for an existing, unique label [col]: the column is
    replaced in place by an [object] column. *)
Definition setitem (col : string) (values : list PyVal) (df : DataFrame)
  : DataFrame :=
  mkDataFrame (index df)
    (map (fun nc => if String.eqb (fst nc) col
                    then (fst nc, ColObject values) else nc)
         (series df)).

(** [df[col]] for a unique label. *)
Fixpoint getitem (col : string) (cols : list (string * Column))
  : option Column :=
  match cols with
  | [] => None
  | (label, c) :: rest =>
      if String.eqb label col then Some c else getitem col rest
  end.

(** [df.select_dtypes(include=['object']).columns] *)
Definition select_dtypes_object (df : DataFrame) : list string :=
  map fst (List.filter (fun nc => is_object (snd nc)) (series df)).

(** ** The store *)

Definition loc : Type := positive.

Abbreviation heap := (gmap loc DataFrame).

(** Computations over the store.  [None] is a state the embedding does not
    cover: a dangling reference, or label-based access on a frame whose
    labels are not distinct. *)
Definition M (A : Type) : Type := heap -> option (A * heap).

#[global] Instance M_ret : MRet M := fun A a h => Some (a, h).
#[global] Instance M_bind : MBind M := fun A B f m h =>
  match m h with
  | Some (a, h') => f a h'
  | None => None
  end.

#[global] Instance M_fmap : FMap M := fun A B f m h =>
  match m h with
  | Some (a, h') => Some (f a, h')
  | None => None
  end.

Definition stuck {A : Type} : M A := fun _ => None.

Definition read (l : loc) : M DataFrame := fun h =>
  match h !! l with
  | Some df => Some (df, h)
  | None => None
  end.

Definition update (l : loc) (f : DataFrame -> DataFrame) : M unit := fun h =>
  match h !! l with
  | Some df => Some (tt, <[l := f df]> h)
  | None => None
  end.

(** [df.copy()]: a new object holding the same labels and cells. *)
Definition DataFrame_copy (l : loc) : M loc := fun h =>
  match h !! l with
  | Some df => let l' := fresh (dom h) in Some (l', <[l' := df]> h)
  | None => None
  end.

Fixpoint for_each {A : Type} (items : list A) (body : A -> M unit) : M unit :=
  match items with
  | [] => mret tt
  | x :: rest => body x ≫= fun _ => for_each rest body
  end.

(** Are the labels distinct? *)
Fixpoint distinct (labels : list string) : bool :=
  match labels with
  | [] => true
  | x :: rest => negb (existsb (String.eqb x) rest) && distinct rest
  end.

(** ** Validation errors under construction *)

(** The body of a [try] block that appends to [errors] and may raise a
    [KeyError] ([inl key]): the list is threaded through, and survives the
    raise. *)
Definition V (A : Type) : Type := list string -> (string + A) * list string.

#[global] Instance V_ret : MRet V := fun A a errors => (inr a, errors).
#[global] Instance V_bind : MBind V := fun A B f m errors =>
  match m errors with
  | (inr a, errors') => f a errors'
  | (inl e, errors') => (inl e, errors')
  end.

(** [errors.append(msg)] *)
Definition append (msg : string) : V unit := fun errors =>
  (inr tt, errors ++ [msg]).

(** An expression that may raise. *)
Definition eval {A : Type} (r : string + A) : V A := fun errors => (r, errors).

Fixpoint for_fields (fields : list string) (body : string -> V unit) : V unit :=
  match fields with
  | [] => mret tt
  | f :: rest => body f ≫= fun _ => for_fields rest body
  end.

(** ** Requests and the page *)

(** What is handed to [json=] and what [response.json()] gives back. *)
#[warnings="-register-all"]
Inductive pyobj : Type :=
| OVal (v : PyVal)
| OList (items : list pyobj)
| ODict (items : list (string * pyobj)).

(** The number of elements of a JSON array. *)
Definition array_length (o : pyobj) : option nat :=
  match o with
  | OList items => Some (List.length items)
  | _ => None
  end.

(** [json.dumps(v, allow_nan=False)] on a scalar, as [requests] calls it for
    [json=]: the exception it raises, if any.  NaN and the infinities are a
    [ValueError], which [requests] turns into [InvalidJSONError]; a
    [numpy.float64] is a [float] to the encoder, while [numpy.int64] and
    [numpy.bool_] are unknown to it, a [TypeError] that [requests] lets
    through. *)
Definition val_dumps_error (v : PyVal) : option exn :=
  match v with
  | VFloat (FFin _) | VNpFloat64 (FFin _) => None
  | VFloat _ | VNpFloat64 _ => Some InvalidJSONError
  | VNpInt64 _ | VNpBool _ => Some TypeError
  | VNone | VBool _ | VInt _ | VStr _ => None
  end.

(** The same on a whole value: the encoder walks it in order and the first
    offending scalar ends the walk. *)
Fixpoint json_dumps_error (o : pyobj) : option exn :=
  match o with
  | OVal v => val_dumps_error v
  | OList items =>
      (fix first (l : list pyobj) : option exn :=
         match l with
         | [] => None
         | x :: rest =>
             match json_dumps_error x with
             | Some e => Some e
             | None => first rest
             end
         end) items
  | ODict items =>
      (fix first (l : list (string * pyobj)) : option exn :=
         match l with
         | [] => None
         | (_, x) :: rest =>
             match json_dumps_error x with
             | Some e => Some e
             | None => first rest
             end
         end) items
  end.

Record request : Type := mkRequest {
  url : string;
  headers : list (string * string);
  json : pyobj
}.

(** What the remote end does with a request: a response with its status,
    text and decoded body, or a failure of the transport. *)
Inductive http_result : Type :=
| Response (status_code : Z) (text : string) (body : option pyobj)
| TransportFailure.

(** What the process does to the outside: requests posted and messages put
    on the page, in order. *)
Inductive event : Type :=
| Post (r : request)
| StError (msg : string)
| StSuccess (msg : string).

Definition world : Type := list event.

Definition posts (w : world) : list request :=
  omap (fun e => match e with Post r => Some r | _ => None end) w.

(** The page after an upload has been handled. *)
Inductive page : Type :=
| MissingColumns
| RowLimitExceeded
| Classified (results : pyobj)
| Failed
| Uncaught (e : exn).

(** Python truthiness of a scalar. *)
Definition val_truthy (v : PyVal) : bool :=
  match v with
  | VNone => false
  | VBool b | VNpBool b => b
  | VInt z | VNpInt64 z => negb (z =? 0)%Z
  | VFloat (FFin q) | VNpFloat64 (FFin q) => negb (Qeq_bool q 0)
  | VFloat _ | VNpFloat64 _ => true
  | VStr s => negb (String.eqb s EmptyString)
  end.

(** Python truthiness of what [call_serve_api] returns. *)
Definition truthy (r : option pyobj) : bool :=
  match r with
  | None => false
  | Some (OVal v) => val_truthy v
  | Some (OList items) => negb (Nat.eqb (List.length items) 0)
  | Some (ODict items) => negb (Nat.eqb (List.length items) 0)
  end.

Local Open Scope string_scope.
Local Infix "+++" := String.append (at level 60, right associativity).

(** [', '.join(items)] *)
Fixpoint join (sep : string) (items : list string) : string :=
  match items with
  | [] => ""
  | [x] => x
  | x :: rest => x +++ sep +++ join sep rest
  end.

(** [repr(key)] for a key without quotes or escapes, as the field names
    are. *)
Definition repr_str (key : string) : string := "'" +++ key +++ "'".

(** [str(e)] for the [KeyError] of a failed lookup: the [repr] of the key. *)
Definition str_KeyError (key : string) : string := repr_str key.

(** [REQUIRED_COLUMNS] of [app.py] *)
Definition REQUIRED_COLUMNS : list string :=
  ["timestamp"; "flow_dur"; "src_ip"; "dest_ip"; "dest_port"; "src_port";
   "fwd_bytes"; "bwd_bytes"; "total_bwd_pkts"; "total_fwd_pkts"].

(** [NetflowValidator.TIMESTAMP_FORMATS], [PORT_MIN], [PORT_MAX] *)
Definition TIMESTAMP_FORMATS : list string :=
  ["%Y-%m-%d %H:%M:%S"; "%Y-%m-%dT%H:%M:%S"; "%Y/%m/%d %H:%M:%S"].
Definition PORT_MIN : Z := 0.
Definition PORT_MAX : Z := 65535.

(** [validate_port]: [isinstance(port, (int, float)) and
    PORT_MIN <= port <= PORT_MAX] *)
Definition validate_port (port : PyVal) : bool :=
  isinstance_int_float port && (int_le_val PORT_MIN port && val_le_int port PORT_MAX).

(** [validate_numeric]: [isinstance(value, (int, float)) and value >= 0] *)
Definition validate_numeric (value : PyVal) : bool :=
  isinstance_int_float value && int_le_val 0 value.

Definition numeric_fields : list string :=
  ["flow_dur"; "fwd_bytes"; "bwd_bytes"; "total_bwd_pkts"; "total_fwd_pkts"].

(** ** The validators, the sanitizer and the gateway *)

Section Pipeline.

(** [float.__repr__] on a finite value (its shortest round-tripping
    decimal). *)
Variable repr_float : Q -> string.

(** [ipaddress.ip_address(ip)] returns, rather than raising [ValueError]. *)
Variable ip_address_parses : string -> bool.

(** [datetime.strptime(timestamp, fmt)] returns, rather than raising
    [ValueError]. *)
Variable strptime_parses : string -> string -> bool.

(** [os.getenv("SERVING_API")] and [os.getenv("API_KEY")]; each is
    [None] when the variable is unset. *)
Variable SERVING_API : option string.
Variable key_data : option string.

(** The remote end. *)
Variable endpoint : request -> http_result.

(** What [requests] does with the URL and the headers before it looks at
    the body ([PreparedRequest.prepare_url], [prepare_headers]): the
    exception it raises on them, if any. *)
Variable prepare_raises : string -> list (string * string) -> option exn.

(** [pd.read_json(StringIO(json.dumps(results)), orient="records")]: the
    exception it raises on the decoded answer, if any. *)
Variable read_json_raises : pyobj -> option exn.

(** [str(f)] *)
Definition str_float (f : PyFloat) : string :=
  match f with
  | FNaN => "nan"
  | FInf true => "-inf"
  | FInf false => "inf"
  | FFin q => repr_float q
  end.

(** [str(v)], which is also how an f-string renders [{v}]. *)
Definition py_str (v : PyVal) : string :=
  match v with
  | VNone => "None"
  | VBool b | VNpBool b => if b then "True" else "False"
  | VInt z | VNpInt64 z => pretty.pretty z
  | VFloat f | VNpFloat64 f => str_float f
  | VStr s => s
  end.

(** [NetflowValidator.validate_ip] *)
Definition validate_ip (ip : string) : bool := ip_address_parses ip.

(** [NetflowValidator.validate_timestamp]: the first format that parses
    ends the loop. *)
Definition validate_timestamp (timestamp : string) : bool :=
  existsb (strptime_parses timestamp) TIMESTAMP_FORMATS.

(** One [if not valid: errors.append(...)] of the loop body.  The message
    reads the field a second time, which yields the same object. *)
Definition check (valid : bool) (what : string) (idx value : PyVal) : V unit :=
  if valid then mret tt
  else append ("Invalid " +++ what +++ " at row " +++ py_str idx +++ ": "
               +++ py_str value).

(** The body of the [try] for one row. *)
Definition try_row (idx : PyVal) (row : Row) : V unit :=
  src_ip ← eval (Series_getitem row "src_ip");
  check (validate_ip (py_str src_ip)) "source IP" idx src_ip;;
  dest_ip ← eval (Series_getitem row "dest_ip");
  check (validate_ip (py_str dest_ip)) "destination IP" idx dest_ip;;
  src_port ← eval (Series_getitem row "src_port");
  check (validate_port src_port) "source port" idx src_port;;
  dest_port ← eval (Series_getitem row "dest_port");
  check (validate_port dest_port) "destination port" idx dest_port;;
  timestamp ← eval (Series_getitem row "timestamp");
  check (validate_timestamp (py_str timestamp)) "timestamp" idx timestamp;;
  for_fields numeric_fields (fun field =>
    value ← eval (Series_getitem row field);
    check (validate_numeric value) field idx value).

(** [try: ... except KeyError as e: errors.append(...)] for one row; the
    result is the error list after the row. *)
Definition validate_row (errors : list string) (r : PyVal * Row) : list string :=
  match try_row (fst r) (snd r) errors with
  | (inr _, errors') => errors'
  | (inl key, errors') =>
      (errors' ++ ["Missing required column: " +++ str_KeyError key])%list
  end.

(** [x.astype(str).apply(lambda x: re.sub(r'<[^>]*>', '', x))] on one
    column. *)
Definition astype_str_strip (c : Column) : list PyVal :=
  map (fun v => VStr (Text.strip_tags (py_str v))) (objects c).

(** [sanitize_dataframe].  The test after the renaming loop is not in the
    source: from there on rows and columns are reached by label, and what
    pandas hands out when two labels have become equal (a sub-frame instead
    of a cell) is not covered here, so such a frame ends in [stuck]. *)
Definition sanitize_dataframe (df : loc) : M (loc * list string) :=
  clean_df ← DataFrame_copy df;
  cols ← columns <$> read clean_df;
  for_each cols (fun column =>
    update clean_df (rename column (Text.normalize column)));;
  labels ← columns <$> read clean_df;
  (if distinct labels then mret tt else stuck);;
  rows ← iterrows <$> read clean_df;
  let errors := fold_left validate_row rows [] in
  string_columns ← select_dtypes_object <$> read clean_df;
  for_each string_columns (fun col =>
    cur ← read clean_df;
    match getitem col (series cur) with
    | Some c => update clean_df (setitem col (astype_str_strip c))
    | None => stuck
    end);;
  mret (clean_df, errors).

(** [df.to_dict(orient='records')]: one dict per row, keyed by the column
    labels, the cells boxed as Python objects. *)
Definition to_dict_records (df : DataFrame) : list pyobj :=
  imap (fun i _ =>
          ODict (map (fun nc => (fst nc, OVal (nth i (objects (snd nc)) VNone)))
                     (series df)))
       (index df).

(** The f-string rendering of [key_data]. *)
Definition str_key_data : string :=
  match key_data with
  | Some k => k
  | None => "None"
  end.

(** The URL as [requests] reads it: [str(url)], so an unset variable is
    the text [None]. *)
Definition str_SERVING_API : string :=
  match SERVING_API with
  | Some u => u
  | None => "None"
  end.

(** The function [call_serve_api] that the decorator wraps.
    [requests.post] first prepares the request: the URL and the headers,
    then the body, which it serialises with [allow_nan=False]; an exception
    there is not an [HTTPError] and leaves the function before anything is
    sent.  Only a prepared request is posted. *)
Definition call_serve_api_func (input_data : pyobj) (w : world)
  : outcome (option pyobj) * world :=
  let headers := [("Authorization", "Bearer f" +++ str_key_data);
                  ("Content-Type", "application/json")] in
  let req := mkRequest str_SERVING_API headers (OList [input_data]) in
  match prepare_raises str_SERVING_API headers with
  | Some e => (Raised e, w)
  | None =>
      match json_dumps_error (OList [input_data]) with
      | Some e => (Raised e, w)
      | None =>
          let w1 := (w ++ [Post req])%list in
          match endpoint req with
          | TransportFailure => (Raised ConnectionError, w1)
          | Response status text body =>
              if (400 <=? status)%Z && (status <? 600)%Z
              then (Returned None,
                    (w1 ++ [StError ("API Error: " +++ pretty.pretty status
                                     +++ " - " +++ text)])%list)
              else match body with
                   | Some results => (Returned (Some results), w1)
                   | None => (Raised JSONDecodeError, w1)
                   end
          end
      end
  end.

(** [@api_rate_limiter def call_serve_api(input_data)] *)
Definition call_serve_api (limiter : RateLimiter.t) (now : Q)
    (input_data : pyobj) (w : world)
  : outcome (option pyobj) * RateLimiter.t * world :=
  RateLimiter.wrapper call_serve_api_func limiter now input_data w.

(** The process: the store, the module-level limiter, and the outside. *)
Record state : Type := mkState {
  store : heap;
  limiter : RateLimiter.t;
  out : world
}.

(** [missing_columns] of [app.py] *)
Definition missing_columns (df : DataFrame) : list string :=
  List.filter
    (fun col => negb (existsb (String.eqb (Text.lower col))
                              (map Text.lower (columns df))))
    REQUIRED_COLUMNS.

(** The [if uploaded_file:] branch of [app.py], from the frame that
    [pd.read_csv] returned up to the page that is chosen; [now] is the
    clock reading the limiter takes if it is reached.  A truthy answer is
    first read back into a frame with [pd.read_json]; what is rendered from
    that frame (the tabs, the table, the download button) is the page
    [Classified]. *)
Definition process_upload (df : loc) (now : Q) (st : state)
  : option (page * state) :=
  match sanitize_dataframe df (store st) with
  | None => None
  | Some ((df', errors), h) =>
      match h !! df' with
      | None => None
      | Some clean =>
          let payload := OList (to_dict_records clean) in
          match missing_columns clean with
          | (_ :: _) as missing =>
              Some (MissingColumns,
                    mkState h (limiter st)
                      (out st ++ [StError ("Missing columns: "
                                           +++ join ", " missing)])%list)
          | [] =>
              if (Z.of_nat (List.length (index clean)) <=? 100)%Z then
                let w := (out st ++
                  [StSuccess "File contains all required columns and meets the row limit of 100."])%list in
                match call_serve_api (limiter st) now payload w with
                | (Raised e, rl, w') => Some (Uncaught e, mkState h rl w')
                | (Returned r, rl, w') =>
                    match r with
                    | Some results =>
                        if truthy r
                        then match read_json_raises results with
                             | None =>
                                 Some (Classified results, mkState h rl w')
                             | Some e => Some (Uncaught e, mkState h rl w')
                             end
                        else Some (Failed, mkState h rl
                               (w' ++ [StError "Failed to get classification results."])%list)
                    | None =>
                        Some (Failed, mkState h rl
                               (w' ++ [StError "Failed to get classification results."])%list)
                    end
                end
              else
                Some (RowLimitExceeded,
                      mkState h (limiter st)
                        (out st ++ [StError ("File exceeds the row limit of 100. Your file contains "
                                             +++ pretty.pretty (List.length (index clean))
                                             +++ " rows.")])%list)
          end
      end
  end.

(** ** What the functions above compute

    Closed forms the loops are compared with below. *)

(** The fields in the order the loop body reads them. *)
Definition FIELD_ORDER : list string :=
  (["src_ip"; "dest_ip"; "src_port"; "dest_port"; "timestamp"]
     ++ numeric_fields)%list.

(** The test the loop body applies to a field. *)
Definition valid_for (field : string) (v : PyVal) : bool :=
  if String.eqb field "src_ip" || String.eqb field "dest_ip"
  then validate_ip (py_str v)
  else if String.eqb field "src_port" || String.eqb field "dest_port"
  then validate_port v
  else if String.eqb field "timestamp" then validate_timestamp (py_str v)
  else validate_numeric v.

(** How the message of a failed test names the field. *)
Definition what_of (field : string) : string :=
  if String.eqb field "src_ip" then "source IP"
  else if String.eqb field "dest_ip" then "destination IP"
  else if String.eqb field "src_port" then "source port"
  else if String.eqb field "dest_port" then "destination port"
  else field.

Definition invalid_message (field : string) (idx v : PyVal) : string :=
  "Invalid " +++ what_of field +++ " at row " +++ py_str idx +++ ": "
  +++ py_str v.

Definition missing_message (field : string) : string :=
  "Missing required column: '" +++ field +++ "'".

(** The errors one present field contributes to its row. *)
Definition field_errors (idx : PyVal) (row : Row) (field : string)
  : list string :=
  match Series_getitem row field with
  | inr v => if valid_for field v then [] else [invalid_message field idx v]
  | inl _ => []
  end.

(** Reading one field and testing it, as the loop body does for each. *)
Definition check_field (idx : PyVal) (row : Row) (field : string) : V unit :=
  value ← eval (Series_getitem row field);
  check (valid_for field value) (what_of field) idx value.

(** One round of the tag-stripping loop on a frame with distinct labels. *)
Definition strip_label (col : string) (df : DataFrame) : DataFrame :=
  mkDataFrame (index df)
    (map (fun nc => if String.eqb (fst nc) col
                    then (fst nc, ColObject (astype_str_strip (snd nc)))
                    else nc)
         (series df)).

(** The fields read before the first absent one, and that one. *)
Fixpoint split_missing (row : Row) (fields : list string)
  : list string * option string :=
  match fields with
  | [] => ([], None)
  | f :: rest =>
      match Series_getitem row f with
      | inl _ => ([], Some f)
      | inr _ => let '(before, m) := split_missing row rest in
                 (f :: before, m)
      end
  end.

(** The errors of one row. *)
Definition row_errors (r : PyVal * Row) : list string :=
  let '(before, m) := split_missing (snd r) FIELD_ORDER in
  (concat (map (field_errors (fst r) (snd r)) before)
   ++ match m with
      | Some f => [missing_message f]
      | None => []
      end)%list.

(** A row all of whose present fields pass their test. *)
Definition row_valid (r : PyVal * Row) : Prop :=
  forall field v, In field FIELD_ORDER ->
    Series_getitem (snd r) field = inr v -> valid_for field v = true.

(** The frame after the renaming loop. *)
Definition normalize_columns (df : DataFrame) : DataFrame :=
  mkDataFrame (index df)
    (map (fun nc => (Text.normalize (fst nc), snd nc)) (series df)).

(** The frame after the tag-stripping loop. *)
Definition strip_objects (df : DataFrame) : DataFrame :=
  mkDataFrame (index df)
    (map (fun nc => (fst nc, if is_object (snd nc)
                             then ColObject (astype_str_strip (snd nc))
                             else snd nc))
         (series df)).

Definition sanitized (df : DataFrame) : DataFrame :=
  strip_objects (normalize_columns df).

(** Every cell is a string without a tag. *)
Definition tag_free_strings (cells : list PyVal) : Prop :=
  Forall (fun v => exists s, v = VStr s /\ Text.has_tag s = false) cells.

(** No text cell of the frame has an embedded tag. *)
Definition markup_free (df : DataFrame) : Prop :=
  forall name cells s, In (name, ColObject cells) (series df) ->
    In (VStr s) cells -> Text.has_tag s = false.

(** The headers of every request of [call_serve_api]. *)
Definition request_headers : list (string * string) :=
  [("Authorization", "Bearer f" +++ str_key_data);
   ("Content-Type", "application/json")].

(** The one request a call of [call_serve_api] makes. *)
Definition request_for (input_data : pyobj) : request :=
  mkRequest str_SERVING_API request_headers (OList [input_data]).

(** What preparing the URL and the headers raises, if anything. *)
Definition preparation_error : option exn :=
  prepare_raises str_SERVING_API request_headers.

Definition is_dict (o : pyobj) : Prop :=
  match o with ODict _ => True | _ => False end.

Definition authorization (r : request) : option string :=
  snd <$> List.find (fun kv => String.eqb (fst kv) "Authorization") (headers r).

Definition content_type (r : request) : option string :=
  snd <$> List.find (fun kv => String.eqb (fst kv) "Content-Type") (headers r).

End Pipeline.

(** The limiter after a sequence of attempts at the given clock readings. *)
Definition run_attempts (self : RateLimiter.t) (nows : list Q) : RateLimiter.t :=
  fold_left (fun s now => snd (RateLimiter.critical_section s now)) nows self.

(** A wrapped function that only logs its argument. *)
Definition logging_func (arg : nat) (w : list nat) : outcome unit * list nat :=
  (Returned tt, (w ++ [arg])%list).

(** ** A sample upload *)

Module Sample.

Local Open Scope string_scope.

(** [float.__repr__], [ipaddress.ip_address] and [datetime.strptime] on
    the values of the sample. *)
Definition repr_float (q : Q) : string :=
  if Qeq_bool q (161 # 2) then "80.5" else "0.0".

Definition ip_address_parses (s : string) : bool :=
  existsb (String.eqb s) ["10.0.0.1"; "10.0.0.2"; "192.168.1.20"; "::1"; "fe80::1"].

Definition strptime_parses (ts fmt : string) : bool :=
  String.eqb fmt "%Y-%m-%d %H:%M:%S"
    && existsb (String.eqb ts)
         ["2024-01-13 10:00:00"; "2024-01-13 10:00:01"; "2024-01-13 10:00:02"]
  || String.eqb fmt "%Y-%m-%dT%H:%M:%S" && String.eqb ts "2024-01-13T10:00:03"
  || String.eqb fmt "%Y/%m/%d %H:%M:%S" && String.eqb ts "2024/01/13 10:00:04".

Definition endpoint (r : request) : http_result :=
  Response 200 "[{}]" (Some (OList [ODict []])).

(** The URL and the headers of the sample are well formed. *)
Definition prepare_raises (url : string) (headers : list (string * string))
  : option exn := None.

(** An answer is read back when it is an array of records. *)
Definition read_json_raises (results : pyobj) : option exn :=
  match results with
  | OList items =>
      if forallb (fun o => match o with ODict _ => true | _ => false end) items
      then None else Some ValueError
  | _ => Some ValueError
  end.

(** Five valid rows under headers that differ from the schema in case and
    padding, with one extra text column. *)
Definition upload : DataFrame :=
  mkDataFrame [VInt 0; VInt 1; VInt 2; VInt 3; VInt 4]
    [ (" Timestamp", ColObject [VStr "2024-01-13 10:00:00"; VStr "2024-01-13 10:00:01";
                                VStr "2024-01-13 10:00:02"; VStr "2024-01-13T10:00:03";
                                VStr "2024/01/13 10:00:04"]);
      ("Flow_Dur", ColFloat64 [FFin (161 # 2); FFin 0; FFin 0; FFin 0; FFin 0]);
      ("SRC_IP ", ColObject [VStr "10.0.0.1"; VStr "10.0.0.2"; VStr "::1";
                             VStr "fe80::1"; VStr "192.168.1.20"]);
      ("dest_ip", ColObject [VStr "10.0.0.2"; VStr "10.0.0.1"; VStr "::1";
                             VStr "10.0.0.1"; VStr "10.0.0.1"]);
      ("dest_port", ColInt64 [443; 80; 0; 65535; 8080]%Z);
      ("src_port", ColFloat64 [FFin (161 # 2); FFin 0; FFin 0; FFin 0; FFin 0]);
      ("fwd_bytes", ColInt64 [10; 20; 30; 40; 50]%Z);
      ("bwd_bytes", ColInt64 [1; 2; 3; 4; 5]%Z);
      ("total_bwd_pkts", ColInt64 [1; 1; 1; 1; 1]%Z);
      ("total_fwd_pkts", ColInt64 [2; 2; 2; 2; 2]%Z);
      ("note", ColObject [VStr "<script>alert(1)</script>benign"; VStr "ok";
                          VStr "a <b>bold</b> word"; VStr "x < y"; VStr "plain"]) ].

(** The same upload with the column [dest_port] left out and a malformed
    source address in its second row. *)
Definition upload_without_dest_port : DataFrame :=
  mkDataFrame [VInt 0; VInt 1]
    [ ("timestamp", ColObject [VStr "2024-01-13 10:00:00"; VStr "2024-01-13 10:00:01"]);
      ("flow_dur", ColInt64 [1; 2]%Z);
      ("src_ip", ColObject [VStr "10.0.0.1"; VStr "999.999.999.999"]);
      ("dest_ip", ColObject [VStr "10.0.0.2"; VStr "10.0.0.1"]);
      ("src_port", ColInt64 [1024; 1025]%Z);
      ("fwd_bytes", ColInt64 [10; 20]%Z);
      ("bwd_bytes", ColInt64 [1; 2]%Z);
      ("total_bwd_pkts", ColInt64 [1; 1]%Z);
      ("total_fwd_pkts", ColInt64 [2; 2]%Z) ].

(** A frame without tags, already in the form the sanitizer leaves. *)
Definition plain : DataFrame :=
  mkDataFrame [VInt 0]
    [ ("SRC_IP", ColObject [VStr "10.0.0.1"]);
      ("note", ColObject [VStr "x < y"]);
      ("src_port", ColInt64 [80]%Z) ].

(** A one-cell frame holding a script tag. *)
Definition tagged : DataFrame :=
  mkDataFrame [VInt 0]
    [ ("Note", ColObject [VStr "<script>alert(1)</script>benign"]) ].

Definition place : loc := 1%positive.

Definition store_of (df : DataFrame) : gmap loc DataFrame := {[ place := df ]}.

Definition sanitize (df : DataFrame) : option (loc * list string * gmap loc DataFrame) :=
  sanitize_dataframe repr_float ip_address_parses strptime_parses place (store_of df).

Definition start (df : DataFrame) : state :=
  mkState (store_of df) api_rate_limiter [].

Definition process (df : DataFrame) (now : Q) : option (page * state) :=
  process_upload repr_float ip_address_parses strptime_parses
    (Some "https://serving.example/classify") (Some "secret") endpoint
    prepare_raises read_json_raises place now (start df).

(** The cell of column [col] in row [i] of the frame the sanitizer
    returns. *)
Definition sanitized_cell (df : DataFrame) (col : string) (i : nat)
  : option PyVal :=
  match sanitize df with
  | Some (l, _, h) =>
      match h !! l with
      | Some clean =>
          match getitem col (series clean) with
          | Some c => nth_error (objects c) i
          | None => None
          end
      | None => None
      end
  | None => None
  end.

(** The error list the sanitizer returns. *)
Definition errors_of (df : DataFrame) : option (list string) :=
  match sanitize df with
  | Some (_, errors, _) => Some errors
  | None => None
  end.

(** The requests posted while the upload is handled. *)
Definition posted (df : DataFrame) (now : Q) : option (list request) :=
  match process df now with
  | Some (_, st) => Some (posts (out st))
  | None => None
  end.

End Sample.

(** ** Further notions *)

(** The timestamps of the attempts that are let through, in order, when
    attempts are made on [self] at the clock readings [nows]. *)
Fixpoint admitted_in_run (self : RateLimiter.t) (nows : list Q) : list Q :=
  match nows with
  | [] => []
  | now :: rest =>
      match RateLimiter.critical_section self now with
      | (inr _, self') => now :: admitted_in_run self' rest
      | (inl _, self') => admitted_in_run self' rest
      end
  end.

(** A timestamp whose age at [now] is at least [time_window], as the
    eviction loop tests it. *)
Definition aged (now : Q) (time_window : Z) (stamp : Q) : bool :=
  Qle_bool (inject_Z time_window) (now - stamp).

(** How many of the timestamps are younger than [time_window] at [now]. *)
Definition within_window (now : Q) (time_window : Z) (stamps : list Q) : nat :=
  List.length (List.filter (fun t => negb (aged now time_window t)) stamps).

(** Only white space. *)
Fixpoint all_space (s : string) : bool :=
  match s with
  | EmptyString => true
  | String c r => Text.is_space c && all_space r
  end.

(** Does [s] contain a [<]? *)
Fixpoint has_lt (s : string) : bool :=
  match s with
  | EmptyString => false
  | String c r => Ascii.eqb c Text.lt_sign || has_lt r
  end.

(** A binary64 value that is neither NaN nor an infinity. *)
Definition is_finite (f : PyFloat) : bool :=
  match f with
  | FFin _ => true
  | FNaN | FInf _ => false
  end.

(** No cell of a [float64] column is NaN or infinite. *)
Definition finite_floats (df : DataFrame) : bool :=
  forallb (fun nc =>
             match snd nc with
             | ColFloat64 v => forallb is_finite v
             | _ => true
             end)
          (series df).

(** The required names that are not among the labels. *)
Definition absent_from (labels : list string) : list string :=
  List.filter (fun g => negb (existsb (String.eqb g) labels)) REQUIRED_COLUMNS.

(** ** More uploads *)

Module Uploads.

(** Two rows under a complete header; the second row fails the address,
    port, timestamp and counter tests. *)
Definition invalid : DataFrame :=
  mkDataFrame [VInt 0; VInt 1]
    [ ("Timestamp", ColObject [VStr "2024-01-13 10:00:00"; VStr "13/01/2024"]);
      ("flow_dur", ColInt64 [1; 2]%Z);
      ("src_ip", ColObject [VStr "10.0.0.1"; VStr "999.999.999.999"]);
      ("dest_ip", ColObject [VStr "10.0.0.2"; VStr "not-an-ip"]);
      ("dest_port", ColInt64 [443; 65536]%Z);
      ("src_port", ColInt64 [1024; -1]%Z);
      ("fwd_bytes", ColInt64 [10; -20]%Z);
      ("bwd_bytes", ColInt64 [1; 2]%Z);
      ("total_bwd_pkts", ColInt64 [1; 1]%Z);
      ("total_fwd_pkts", ColInt64 [2; 2]%Z) ].

(** A header without rows, and without most of the required columns. *)
Definition header_only : DataFrame :=
  mkDataFrame [] [ ("src_ip", ColObject []); ("note", ColObject []) ].

(** [n] rows of zeros under the required header. *)
Definition zeros (n : nat) : DataFrame :=
  mkDataFrame (map (fun i => VInt (Z.of_nat i)) (seq 0 n))
    (map (fun name => (name, ColInt64 (repeat 0%Z n))) REQUIRED_COLUMNS).

(** An endpoint that is overloaded, and one that cannot be reached. *)
Definition busy_endpoint (r : request) : http_result :=
  Response 503 "busy" None.

Definition unreachable_endpoint (r : request) : http_result :=
  TransportFailure.

(** One row under the required header whose [flow_dur] cell is empty in
    the file, which [pd.read_csv] reads as NaN. *)
Definition with_gap : DataFrame :=
  mkDataFrame [VInt 0]
    [ ("timestamp", ColObject [VStr "2024-01-13 10:00:00"]);
      ("flow_dur", ColFloat64 [FNaN]);
      ("src_ip", ColObject [VStr "10.0.0.1"]);
      ("dest_ip", ColObject [VStr "10.0.0.2"]);
      ("dest_port", ColInt64 [443]%Z);
      ("src_port", ColInt64 [1024]%Z);
      ("fwd_bytes", ColInt64 [10]%Z);
      ("bwd_bytes", ColInt64 [1]%Z);
      ("total_bwd_pkts", ColInt64 [1]%Z);
      ("total_fwd_pkts", ColInt64 [2]%Z) ].

(** A limiter of two calls per minute that has just let two through. *)
Definition full_limiter : RateLimiter.t :=
  RateLimiter.mk 2 60 [0%Q; 1%Q].

Definition process_with (endpoint : request -> http_result)
    (limiter : RateLimiter.t) (df : DataFrame) (now : Q)
  : option (page * state) :=
  process_upload Sample.repr_float Sample.ip_address_parses
    Sample.strptime_parses (Some "https://serving.example/classify")
    (Some "secret") endpoint Sample.prepare_raises Sample.read_json_raises
    Sample.place now (mkState (Sample.store_of df) limiter []).

End Uploads.

Local Close Scope string_scope.

(** * Properties *)

(** ** The rate limiter *)

Lemma evict_length now tw cs :
  (List.length (RateLimiter.evict now tw cs) <= List.length cs)%nat.
Proof.
  induction cs as [|c rest IH]; simpl; [lia|].
  destruct (Qle_bool (inject_Z tw) (now - c)); simpl; lia.
Qed.

(** Eviction that keeps the length keeps the deque. *)
Lemma evict_fixed now tw cs :
  List.length (RateLimiter.evict now tw cs) = List.length cs ->
  RateLimiter.evict now tw cs = cs.
Proof.
  destruct cs as [|c rest]; simpl; [reflexivity|].
  destruct (Qle_bool (inject_Z tw) (now - c)); [|reflexivity].
  intros H. pose proof (evict_length now tw rest). lia.
Qed.




Lemma critical_section_max_calls self now :
  RateLimiter.max_calls (snd (RateLimiter.critical_section self now)) = RateLimiter.max_calls self.
Proof.
  unfold RateLimiter.critical_section.
  destruct (RateLimiter.max_calls self <=? _)%Z; reflexivity.
Qed.

Lemma critical_section_time_window self now :
  RateLimiter.time_window (snd (RateLimiter.critical_section self now)) = RateLimiter.time_window self.
Proof.
  unfold RateLimiter.critical_section.
  destruct (RateLimiter.max_calls self <=? _)%Z; reflexivity.
Qed.






(** A reachable limiter keeps its configuration and holds at most
    [max(0, max_calls)] timestamps. *)
Lemma reachable_shape mc tw self :
  RateLimiter.reachable mc tw self ->
  RateLimiter.max_calls self = mc /\ RateLimiter.time_window self = tw
  /\ (Z.of_nat (List.length (RateLimiter.calls self)) <= Z.max 0 mc)%Z.
Proof.
  induction 1 as [|self now Hr (Hm & Ht & Hl)]; simpl.
  - repeat split; lia.
  - rewrite critical_section_max_calls, critical_section_time_window. repeat split; try assumption.
    unfold RateLimiter.critical_section.
    pose proof (evict_length now (RateLimiter.time_window self) (RateLimiter.calls self)).
    destruct (Z.leb_spec (RateLimiter.max_calls self)
                (Z.of_nat (List.length (RateLimiter.evict now
                   (RateLimiter.time_window self) (RateLimiter.calls self)))));
      simpl; [lia|].
    rewrite List.length_app; simpl. lia.
Qed.

Lemma reachable_run mc tw self nows :
  RateLimiter.reachable mc tw self ->
  RateLimiter.reachable mc tw (run_attempts self nows).
Proof.
  revert self. induction nows as [|now rest IH]; simpl; intros self Hr.
  - exact Hr.
  - apply IH. constructor. exact Hr.
Qed.





(** C4. When a guarded call is rejected, that is when after the eviction
    of the timestamps of age at least [time_window] at least [max_calls]
    remain, it raises the rate-limit exception, the wrapped function is not
    run (the outside is as before, for every wrapped function), and the
    limiter is exactly as before the call: no timestamp is recorded and none
    was evicted. *)
Theorem rejected_call_changes_nothing {A B W : Type}
    (func : A -> W -> outcome B * W) mc tw self now args w :
  RateLimiter.reachable mc tw self ->
  (RateLimiter.max_calls self
   <= Z.of_nat (List.length (RateLimiter.evict now (RateLimiter.time_window self)
                               (RateLimiter.calls self))))%Z ->
  RateLimiter.wrapper func self now args w
  = (Raised (Exception RateLimiter.rate_limit_message), self, w).
Proof.
  intros Hr Hrej.
  destruct (reachable_shape _ _ _ Hr) as (Hm & Ht & Hl).
  pose proof (evict_length now (RateLimiter.time_window self)
                (RateLimiter.calls self)) as Hlen.
  assert (Hsame : RateLimiter.evict now (RateLimiter.time_window self)
                    (RateLimiter.calls self) = RateLimiter.calls self).
  { apply evict_fixed. lia. }
  unfold RateLimiter.wrapper, RateLimiter.critical_section.
  destruct (Z.leb_spec (RateLimiter.max_calls self)
              (Z.of_nat (List.length (RateLimiter.evict now
                 (RateLimiter.time_window self) (RateLimiter.calls self)))));
    [|lia].
  rewrite Hsame. destruct self; reflexivity.
Qed.

Lemma rejected_call_changes_nothing_witness :
  RateLimiter.wrapper logging_func
    (run_attempts (RateLimiter.init 2 60) [0%Q; 10%Q]) 20%Q 7%nat [1%nat; 2%nat]
  = (Raised (Exception RateLimiter.rate_limit_message),
     run_attempts (RateLimiter.init 2 60) [0%Q; 10%Q], [1%nat; 2%nat]).
Proof.
  apply (rejected_call_changes_nothing logging_func 2 60
           (run_attempts (RateLimiter.init 2 60) [0%Q; 10%Q]) 20%Q 7%nat
           [1%nat; 2%nat]).
  - apply (RateLimiter.reach_step 2 60
             (snd (RateLimiter.critical_section (RateLimiter.init 2 60) 0%Q)) 10%Q).
    apply (RateLimiter.reach_step 2 60 (RateLimiter.init 2 60) 0%Q).
    apply RateLimiter.reach_init.
  - vm_compute. discriminate.
Defined.

(** C3. With [max_calls = 2] and [time_window = 60]: two calls within the
    window are let through to the wrapped function, a third within the same
    window raises the rate-limit exception, and a call made more than 60
    seconds after the earlier ones is let through again. *)
Theorem two_pass_third_rejected_then_recovers {A B W : Type}
    (func : A -> W -> outcome B * W) (t1 t2 t3 t4 : Q)
    (a1 a2 a3 a4 : A) (w1 w2 w3 w4 : W) :
  (t1 <= t2)%Q -> (t2 <= t3)%Q -> (t3 - t1 < 60)%Q -> (60 < t4 - t2)%Q ->
  RateLimiter.wrapper func (RateLimiter.init 2 60) t1 a1 w1
  = (fst (func a1 w1), RateLimiter.mk 2 60 [t1], snd (func a1 w1))
  /\ RateLimiter.wrapper func (RateLimiter.mk 2 60 [t1]) t2 a2 w2
     = (fst (func a2 w2), RateLimiter.mk 2 60 [t1; t2], snd (func a2 w2))
  /\ RateLimiter.wrapper func (RateLimiter.mk 2 60 [t1; t2]) t3 a3 w3
     = (Raised (Exception RateLimiter.rate_limit_message),
        RateLimiter.mk 2 60 [t1; t2], w3)
  /\ RateLimiter.wrapper func (RateLimiter.mk 2 60 [t1; t2]) t4 a4 w4
     = (fst (func a4 w4), RateLimiter.mk 2 60 [t4], snd (func a4 w4)).
Proof.
  intros H12 H23 H31 H42.
  assert (E21 : Qle_bool (inject_Z 60) (t2 - t1) = false).
  { apply not_true_is_false. rewrite Qle_bool_iff.
    change (inject_Z 60) with 60%Q. lra. }
  assert (E31 : Qle_bool (inject_Z 60) (t3 - t1) = false).
  { apply not_true_is_false. rewrite Qle_bool_iff.
    change (inject_Z 60) with 60%Q. lra. }
  assert (E41 : Qle_bool (inject_Z 60) (t4 - t1) = true).
  { rewrite Qle_bool_iff. change (inject_Z 60) with 60%Q. lra. }
  assert (E42 : Qle_bool (inject_Z 60) (t4 - t2) = true).
  { rewrite Qle_bool_iff. change (inject_Z 60) with 60%Q. lra. }
  unfold RateLimiter.wrapper, RateLimiter.critical_section, RateLimiter.init; simpl.
  rewrite E21, E31, E41, E42; simpl.
  repeat split; destruct (func _ _); reflexivity.
Qed.

Lemma two_pass_third_rejected_then_recovers_witness :
  RateLimiter.wrapper logging_func (RateLimiter.init 2 60) 0%Q 1%nat []
  = (Returned tt, RateLimiter.mk 2 60 [0%Q], [1%nat])
  /\ RateLimiter.wrapper logging_func (RateLimiter.mk 2 60 [0%Q]) 10%Q 2%nat [1%nat]
     = (Returned tt, RateLimiter.mk 2 60 [0%Q; 10%Q], [1%nat; 2%nat])
  /\ RateLimiter.wrapper logging_func (RateLimiter.mk 2 60 [0%Q; 10%Q]) 59%Q 3%nat
       [1%nat; 2%nat]
     = (Raised (Exception RateLimiter.rate_limit_message),
        RateLimiter.mk 2 60 [0%Q; 10%Q], [1%nat; 2%nat])
  /\ RateLimiter.wrapper logging_func (RateLimiter.mk 2 60 [0%Q; 10%Q]) 71%Q 4%nat
       [1%nat; 2%nat]
     = (Returned tt, RateLimiter.mk 2 60 [71%Q], [1%nat; 2%nat; 4%nat]).
Proof.
  apply (two_pass_third_rejected_then_recovers logging_func
           0%Q 10%Q 59%Q 71%Q 1%nat 2%nat 3%nat 4%nat
           [] [1%nat] [1%nat; 2%nat] [1%nat; 2%nat]);
    unfold Qle, Qlt; simpl; lia.
Defined.

(** ** The validators *)

(** Every object that passes the type test and stands for a number in
    [0, 65535] is a valid port. *)
Lemma validate_port_in_range v q :
  isinstance_int_float v = true -> number v = Some (FFin q) ->
  (0 <= q)%Q -> (q <= 65535)%Q -> validate_port v = true.
Proof.
  intros Hi Hn H0 H1. unfold validate_port, int_le_val, val_le_int.
  rewrite Hi, Hn; simpl.
  apply andb_true_intro; split; apply Qle_bool_iff; assumption.
Qed.




(** ** Text *)

Lemma lower_char_space c : Text.is_space (Text.lower_char c) = Text.is_space c.
Proof. destruct c as [[] [] [] [] [] [] [] []]; reflexivity. Qed.

Lemma lower_char_idem c : Text.lower_char (Text.lower_char c) = Text.lower_char c.
Proof. destruct c as [[] [] [] [] [] [] [] []]; reflexivity. Qed.

Lemma lower_idem s : Text.lower (Text.lower s) = Text.lower s.
Proof.
  induction s as [|c r IH]; simpl; [reflexivity|].
  rewrite lower_char_idem, IH. reflexivity.
Qed.

Lemma lower_lstrip s : Text.lower (Text.lstrip s) = Text.lstrip (Text.lower s).
Proof.
  induction s as [|c r IH]; simpl; [reflexivity|].
  rewrite lower_char_space. destruct (Text.is_space c); [exact IH|reflexivity].
Qed.

Lemma lower_rstrip s : Text.lower (Text.rstrip s) = Text.rstrip (Text.lower s).
Proof.
  induction s as [|c r IH]; simpl; [reflexivity|].
  rewrite <- IH, lower_char_space.
  destruct (Text.rstrip r) as [|d r']; simpl; [|reflexivity].
  destruct (Text.is_space c); reflexivity.
Qed.

Lemma rstrip_idem s : Text.rstrip (Text.rstrip s) = Text.rstrip s.
Proof.
  induction s as [|c r IH]; simpl; [reflexivity|].
  destruct (Text.rstrip r) as [|d r'] eqn:E.
  - destruct (Text.is_space c) eqn:Ec; simpl; [reflexivity|].
    rewrite Ec. reflexivity.
  - change (Text.rstrip (String c (String d r')))
      with (match Text.rstrip (String d r') with
            | EmptyString => if Text.is_space c then EmptyString
                             else String c EmptyString
            | r'' => String c r''
            end).
    rewrite IH. reflexivity.
Qed.

Lemma lstrip_no_lead s : Text.no_lead (Text.lstrip s).
Proof.
  induction s as [|c r IH]; simpl; [exact I|].
  destruct (Text.is_space c) eqn:E; [exact IH|exact E].
Qed.

Lemma no_lead_lstrip s : Text.no_lead s -> Text.lstrip s = s.
Proof. destruct s as [|c r]; simpl; [reflexivity|]. intros ->. reflexivity. Qed.

Lemma no_lead_rstrip s : Text.no_lead s -> Text.no_lead (Text.rstrip s).
Proof.
  destruct s as [|c r]; simpl; [exact (fun H => H)|]. intros Hc.
  destruct (Text.rstrip r); [rewrite Hc|]; exact Hc.
Qed.

Lemma strip_idem s : Text.strip (Text.strip s) = Text.strip s.
Proof.
  unfold Text.strip.
  rewrite (no_lead_lstrip (Text.rstrip (Text.lstrip s))).
  - apply rstrip_idem.
  - apply no_lead_rstrip, lstrip_no_lead.
Qed.

(** Normalising a column name twice is normalising it once. *)
Lemma normalize_idem s : Text.normalize (Text.normalize s) = Text.normalize s.
Proof.
  unfold Text.normalize, Text.strip.
  rewrite lower_rstrip, lower_lstrip, lower_idem.
  apply (strip_idem (Text.lower s)).
Qed.

(** Without a [>] nothing is a tag and nothing is removed. *)
Lemma no_gt_untouched s :
  Text.has_gt s = false -> Text.sub_tags false s = s /\ Text.has_tag s = false.
Proof.
  induction s as [|c r IH]; simpl; [split; reflexivity|].
  intros H. apply orb_false_elim in H as [Hc Hr].
  destruct (IH Hr) as [IH1 IH2].
  rewrite Hr, andb_false_r, IH1, IH2. split; reflexivity.
Qed.

(** What [re.sub] returns has no match of the pattern left. *)
Lemma sub_tags_no_tag b s : Text.has_tag (Text.sub_tags b s) = false.
Proof.
  revert b. induction s as [|c r IH]; intros b; simpl; [destruct b; reflexivity|].
  destruct b.
  - destruct (Ascii.eqb c Text.gt_sign); apply IH.
  - destruct (Ascii.eqb c Text.lt_sign) eqn:Ec; simpl.
    + destruct (Text.has_gt r) eqn:Eg; simpl; [apply IH|].
      rewrite Ec. destruct (no_gt_untouched r Eg) as [E1 E2].
      rewrite E1, Eg, E2. reflexivity.
    + rewrite Ec. simpl. apply IH.
Qed.

Lemma strip_tags_no_tag s : Text.has_tag (Text.strip_tags s) = false.
Proof. apply sub_tags_no_tag. Qed.

(** A string without a tag is returned as it is. *)
Lemma strip_tags_tag_free s : Text.has_tag s = false -> Text.strip_tags s = s.
Proof.
  unfold Text.strip_tags.
  induction s as [|c r IH]; simpl; [reflexivity|].
  intros H. apply orb_false_elim in H as [Ht Hr].
  rewrite Ht, (IH Hr). reflexivity.
Qed.

Lemma strip_tags_idem s :
  Text.strip_tags (Text.strip_tags s) = Text.strip_tags s.
Proof. apply strip_tags_tag_free, strip_tags_no_tag. Qed.

(** ** Frames *)

(** The renaming loop, one label at a time, amounts to normalising every
    label. *)
Lemma rename_loop_marks (todo : list string) :
  forall (done : string -> bool) idx (cols : list (string * Column)),
  fold_left (fun d c => rename c (Text.normalize c) d) todo
    (mkDataFrame idx
       (map (fun nc => (if done (fst nc) then Text.normalize (fst nc)
                        else fst nc, snd nc)) cols))
  = mkDataFrame idx
      (map (fun nc => (if done (fst nc) || existsb (String.eqb (fst nc)) todo
                       then Text.normalize (fst nc) else fst nc, snd nc)) cols).
Proof.
  induction todo as [|c rest IH]; intros done idx cols; simpl.
  - f_equal. apply map_ext. intros [n col]; simpl.
    rewrite orb_false_r. reflexivity.
  - set (done' := fun n => done n || String.eqb n c).
    transitivity
      (fold_left (fun d c => rename c (Text.normalize c) d) rest
         (mkDataFrame idx
            (map (fun nc => (if done' (fst nc) then Text.normalize (fst nc)
                             else fst nc, snd nc)) cols))).
    + f_equal. unfold rename; simpl. f_equal. rewrite map_map.
      apply map_ext. intros [n col]; simpl. f_equal. unfold done'.
      destruct (done n); simpl.
      * destruct (String.eqb_spec (Text.normalize n) c) as [<-|_];
          [apply normalize_idem|reflexivity].
      * destruct (String.eqb_spec n c) as [->|_]; reflexivity.
    + rewrite (IH done'). f_equal. apply map_ext. intros [n col]; simpl.
      unfold done'. rewrite orb_assoc. reflexivity.
Qed.

Lemma rename_loop df :
  fold_left (fun d c => rename c (Text.normalize c) d) (columns df) df
  = normalize_columns df.
Proof.
  destruct df as [idx cols]. unfold columns, normalize_columns; simpl.
  pose proof (rename_loop_marks (map fst cols) (fun _ => false) idx cols) as H.
  simpl in H.
  assert (E : map (fun nc : string * Column => (fst nc, snd nc)) cols = cols).
  { clear. induction cols as [|[n c] r IH]; simpl; [reflexivity|].
    rewrite IH. reflexivity. }
  rewrite E in H. rewrite H. f_equal.
  apply map_ext_in. intros [n c] Hin; simpl.
  replace (existsb (String.eqb n) (map fst cols)) with true; [reflexivity|].
  symmetry. apply existsb_exists. exists n. split.
  - apply in_map_iff. exists (n, c). split; [reflexivity|exact Hin].
  - apply String.eqb_refl.
Qed.

(** A loop of in-place updates of one object is one update by the folded
    function. *)
Lemma for_each_update {A : Type} (f : A -> DataFrame -> DataFrame)
    (items : list A) (l : loc) :
  forall (h : gmap loc DataFrame) (d : DataFrame),
  h !! l = Some d ->
  for_each items (fun x => update l (f x)) h
  = Some (tt, <[l := fold_left (fun d x => f x d) items d]> h).
Proof.
  induction items as [|x rest IH]; intros h d Hl; simpl.
  - unfold mret, M_ret. rewrite insert_id; [reflexivity|exact Hl].
  - unfold mbind, M_bind, update at 1. rewrite Hl.
    rewrite (IH (<[l := f x d]> h) (f x d)) by apply lookup_insert_eq.
    rewrite insert_insert_eq. reflexivity.
Qed.

Lemma distinct_lookup (cols : list (string * Column)) n c :
  distinct (map fst cols) = true -> In (n, c) cols -> getitem n cols = Some c.
Proof.
  induction cols as [|[m d] rest IH]; simpl; [contradiction|].
  intros Hd [E|Hin].
  - inversion E; subst. rewrite String.eqb_refl. reflexivity.
  - apply andb_prop in Hd as [Hm Hr].
    destruct (String.eqb_spec m n) as [->|_]; [|apply IH; assumption].
    exfalso. apply negb_true_iff in Hm.
    assert (existsb (String.eqb n) (map fst rest) = true); [|congruence].
    apply existsb_exists. exists n. split; [|apply String.eqb_refl].
    apply in_map_iff. exists (n, c). split; [reflexivity|exact Hin].
Qed.

Lemma getitem_In (cols : list (string * Column)) n c :
  getitem n cols = Some c -> In (n, c) cols.
Proof.
  induction cols as [|[m d] rest IH]; simpl; [discriminate|].
  destruct (String.eqb_spec m n) as [->|_].
  - intros E; inversion E; subst. left; reflexivity.
  - intros E. right. apply IH, E.
Qed.

Lemma distinct_filter (P : string * Column -> bool) cols :
  distinct (map fst cols) = true ->
  distinct (map fst (List.filter P cols)) = true.
Proof.
  induction cols as [|[m d] rest IH]; simpl; [reflexivity|].
  intros Hd. apply andb_prop in Hd as [Hm Hr].
  destruct (P (m, d)); simpl; [|apply IH, Hr].
  rewrite (IH Hr), andb_true_r.
  apply negb_true_iff. apply negb_true_iff in Hm.
  apply not_true_is_false. intros Hex. apply not_true_iff_false in Hm.
  apply Hm. apply existsb_exists in Hex as (x & Hx & Ex).
  apply existsb_exists. exists x. split; [|exact Ex].
  apply in_map_iff in Hx as (nc & <- & Hnc).
  apply in_map_iff. exists nc. split; [reflexivity|].
  apply filter_In in Hnc. tauto.
Qed.


Section Properties.

Variable repr_float : Q -> string.
Variable ip_address_parses : string -> bool.
Variable strptime_parses : string -> string -> bool.
Variable SERVING_API : option string.
Variable key_data : option string.
Variable endpoint : request -> http_result.
Variable prepare_raises : string -> list (string * string) -> option exn.
Variable read_json_raises : pyobj -> option exn.

(** The functions of the pipeline at these parameters. *)
Local Abbreviation py_str' := (py_str repr_float).
Local Abbreviation check' := (check repr_float).
Local Abbreviation invalid_message' := (invalid_message repr_float).
Local Abbreviation astype_str_strip' := (astype_str_strip repr_float).
Local Abbreviation strip_label' := (strip_label repr_float).
Local Abbreviation strip_objects' := (strip_objects repr_float).
Local Abbreviation sanitized' := (sanitized repr_float).
Local Abbreviation validate_ip' := (validate_ip ip_address_parses).
Local Abbreviation validate_timestamp' := (validate_timestamp strptime_parses).
Local Abbreviation validate_row' :=
  (validate_row repr_float ip_address_parses strptime_parses).
Local Abbreviation try_row' :=
  (try_row repr_float ip_address_parses strptime_parses).
Local Abbreviation check_field' :=
  (check_field repr_float ip_address_parses strptime_parses).
Local Abbreviation valid_for' :=
  (valid_for repr_float ip_address_parses strptime_parses).
Local Abbreviation field_errors' :=
  (field_errors repr_float ip_address_parses strptime_parses).
Local Abbreviation row_errors' :=
  (row_errors repr_float ip_address_parses strptime_parses).
Local Abbreviation row_valid' :=
  (row_valid repr_float ip_address_parses strptime_parses).
Local Abbreviation sanitize_dataframe' :=
  (sanitize_dataframe repr_float ip_address_parses strptime_parses).
Local Abbreviation str_key_data' := (str_key_data key_data).
Local Abbreviation request_for' := (request_for SERVING_API key_data).
Local Abbreviation preparation_error' :=
  (preparation_error SERVING_API key_data prepare_raises).
Local Abbreviation call_serve_api_func' :=
  (call_serve_api_func SERVING_API key_data endpoint prepare_raises).
Local Abbreviation call_serve_api' :=
  (call_serve_api SERVING_API key_data endpoint prepare_raises).
Local Abbreviation process_upload' :=
  (process_upload repr_float ip_address_parses strptime_parses
     SERVING_API key_data endpoint prepare_raises read_json_raises).

(** *** The tag-stripping loop *)

Lemma strip_label_columns col df : columns (strip_label' col df) = columns df.
Proof.
  unfold columns, strip_label; simpl. rewrite map_map.
  apply map_ext. intros [n c]; simpl. destruct (String.eqb n col); reflexivity.
Qed.

(** On a frame with distinct labels one round of the loop is
    [strip_label]. *)
Lemma strip_round (l : loc) (h : gmap loc DataFrame) d col :
  h !! l = Some d -> distinct (columns d) = true -> In col (columns d) ->
  (read l ≫= fun cur =>
     match getitem col (series cur) with
     | Some c => update l (setitem col (astype_str_strip' c))
     | None => stuck
     end) h
  = Some (tt, <[l := strip_label' col d]> h).
Proof.
  intros Hl Hd Hin. unfold mbind, M_bind, read. rewrite Hl.
  apply in_map_iff in Hin as ([n c] & <- & Hnc); simpl.
  rewrite (distinct_lookup _ _ _ Hd Hnc).
  unfold update. rewrite Hl. do 3 f_equal.
  unfold setitem, strip_label. f_equal.
  apply map_ext_in. intros [m c'] Hm; simpl.
  destruct (String.eqb_spec m n) as [->|_]; [|reflexivity].
  pose proof (distinct_lookup _ _ _ Hd Hm) as E.
  rewrite (distinct_lookup _ _ _ Hd Hnc) in E. inversion E; reflexivity.
Qed.

Lemma strip_loop (cols : list string) (l : loc) :
  forall (h : gmap loc DataFrame) d,
  h !! l = Some d -> distinct (columns d) = true ->
  (forall col, In col cols -> In col (columns d)) ->
  for_each cols (fun col =>
    read l ≫= fun cur =>
      match getitem col (series cur) with
      | Some c => update l (setitem col (astype_str_strip' c))
      | None => stuck
      end) h
  = Some (tt, <[l := fold_left (fun d col => strip_label' col d) cols d]> h).
Proof.
  induction cols as [|col rest IH]; intros h d Hl Hd Hin; simpl.
  - unfold mret, M_ret. rewrite insert_id; [reflexivity|exact Hl].
  - unfold mbind at 1, M_bind at 1.
    rewrite (strip_round l h d col Hl Hd) by (apply Hin; left; reflexivity).
    rewrite (IH (<[l := strip_label' col d]> h) (strip_label' col d)).
    + rewrite insert_insert_eq. reflexivity.
    + apply lookup_insert_eq.
    + rewrite strip_label_columns. exact Hd.
    + intros c Hc. rewrite strip_label_columns. apply Hin. right. exact Hc.
Qed.

Lemma strip_fold_marks (cols : list string) :
  forall idx (ser : list (string * Column)),
  distinct cols = true ->
  fold_left (fun d col => strip_label' col d) cols (mkDataFrame idx ser)
  = mkDataFrame idx
      (map (fun nc => if existsb (String.eqb (fst nc)) cols
                      then (fst nc, ColObject (astype_str_strip' (snd nc)))
                      else nc) ser).
Proof.
  induction cols as [|col rest IH]; intros idx ser Hd; simpl.
  - f_equal. symmetry. apply map_id.
  - apply andb_prop in Hd as [Hc Hr]. apply negb_true_iff in Hc.
    unfold strip_label at 2; simpl. rewrite (IH _ _ Hr).
    f_equal. rewrite map_map. apply map_ext. intros [n c]; simpl.
    destruct (String.eqb_spec n col) as [->|Hne]; simpl.
    + rewrite Hc. reflexivity.
    + reflexivity.
Qed.

Lemma strip_fold df :
  distinct (columns df) = true ->
  fold_left (fun d col => strip_label' col d) (select_dtypes_object df) df
  = strip_objects' df.
Proof.
  intros Hd. destruct df as [idx ser]. unfold select_dtypes_object; simpl.
  rewrite strip_fold_marks by (apply distinct_filter; exact Hd).
  unfold strip_objects; simpl. f_equal.
  apply map_ext_in. intros [n c] Hin; simpl.
  destruct (is_object c) eqn:Eo.
  - replace (existsb _ _) with true; [reflexivity|].
    symmetry. apply existsb_exists. exists n. split; [|apply String.eqb_refl].
    apply in_map_iff. exists (n, c). split; [reflexivity|].
    apply filter_In. split; [exact Hin|exact Eo].
  - replace (existsb _ _) with false; [reflexivity|].
    symmetry. apply not_true_is_false. intros Hex.
    apply existsb_exists in Hex as (x & Hx & Ex).
    apply String.eqb_eq in Ex; subst x.
    apply in_map_iff in Hx as ([n' c'] & En & Hf); simpl in En; subst n'.
    apply filter_In in Hf as [Hin' Ho']; simpl in Ho'.
    unfold columns in Hd; simpl in Hd.
    pose proof (distinct_lookup _ _ _ Hd Hin) as E1.
    pose proof (distinct_lookup _ _ _ Hd Hin') as E2.
    rewrite E1 in E2. inversion E2; subst. congruence.
Qed.


(** *** The validation loop *)

Lemma Series_getitem_inl row key e :
  Series_getitem row key = inl e -> e = key.
Proof.
  induction row as [|[label v] rest IH]; simpl.
  - intros E; inversion E; reflexivity.
  - destruct (String.eqb label key); [discriminate|exact IH].
Qed.

Lemma check_field_run idx row field errors :
  check_field' idx row field errors
  = match Series_getitem row field with
    | inr _ => (inr tt, (errors ++ field_errors' idx row field)%list)
    | inl e => (inl e, errors)
    end.
Proof.
  unfold check_field, field_errors, mbind, V_bind, eval,
    check, invalid_message.
  destruct (Series_getitem row field) as [e|v]; [reflexivity|].
  destruct (valid_for' field v); simpl.
  - rewrite app_nil_r. reflexivity.
  - reflexivity.
Qed.

(** The body of the loop reads and tests the fields in [FIELD_ORDER],
    one after the other. *)
Lemma try_row_fields idx row errors :
  try_row' idx row errors = for_fields FIELD_ORDER (check_field' idx row) errors.
Proof.
  unfold try_row, FIELD_ORDER, numeric_fields. simpl.
  unfold check_field, mbind, V_bind, eval.
  repeat match goal with
  | |- context [Series_getitem row ?f] =>
      destruct (Series_getitem row f) as [?|?]; [reflexivity|]
  | |- context [check' ?b ?w ?i ?v ?errs] =>
      destruct (check' b w i v errs) as [[?|[]] ?]; [reflexivity|]
  end.
  reflexivity.
Qed.

Lemma for_fields_run idx row fields :
  forall errors,
  for_fields fields (check_field' idx row) errors
  = (match snd (split_missing row fields) with
     | Some f => inl f
     | None => inr tt
     end,
     (errors ++ concat (map (field_errors' idx row)
                            (fst (split_missing row fields))))%list).
Proof.
  induction fields as [|f rest IH]; intros errors; simpl.
  - rewrite app_nil_r. reflexivity.
  - unfold mbind at 1, V_bind at 1. rewrite check_field_run.
    destruct (Series_getitem row f) as [e|v] eqn:E.
    + rewrite (Series_getitem_inl _ _ _ E); simpl.
      rewrite app_nil_r. reflexivity.
    + rewrite IH. destruct (split_missing row rest) as [before m]; simpl.
      rewrite app_assoc. reflexivity.
Qed.

(** One row appends its own errors, whatever was collected before. *)
Lemma validate_row_spec errors r :
  validate_row' errors r = (errors ++ row_errors' r)%list.
Proof.
  unfold validate_row, row_errors.
  rewrite try_row_fields, for_fields_run.
  destruct (split_missing (snd r) FIELD_ORDER) as [before [f|]]; simpl.
  - rewrite <- app_assoc. reflexivity.
  - rewrite app_nil_r. reflexivity.
Qed.

Lemma validate_rows_spec rows :
  forall errors,
  fold_left validate_row' rows errors
  = (errors ++ concat (map row_errors' rows))%list.
Proof.
  induction rows as [|r rest IH]; intros errors; simpl.
  - rewrite app_nil_r. reflexivity.
  - rewrite IH, validate_row_spec, <- app_assoc. reflexivity.
Qed.

(** *** The sanitizer as a whole *)

Lemma normalize_columns_columns df :
  columns (normalize_columns df) = map Text.normalize (columns df).
Proof.
  unfold columns, normalize_columns; simpl. rewrite !map_map. reflexivity.
Qed.

Lemma fresh_loc_unused (h : gmap loc DataFrame) : h !! fresh (dom h) = None.
Proof. apply not_elem_of_dom, is_fresh. Qed.

(** [sanitize_dataframe] allocates one new frame, which ends up holding
    the sanitized copy; the errors are those of the rows of the copy after
    the renaming.  It returns on every frame whose normalised labels are
    distinct. *)
Lemma sanitize_dataframe_spec (h : gmap loc DataFrame) l df :
  h !! l = Some df ->
  distinct (map Text.normalize (columns df)) = true ->
  sanitize_dataframe' l h
  = Some (fresh (dom h),
          concat (map row_errors' (iterrows (normalize_columns df))),
          <[fresh (dom h) := sanitized' df]> h).
Proof.
  intros Hl Hd. set (l' := fresh (dom h)).
  unfold sanitize_dataframe.
  unfold mbind at 1, M_bind at 1, DataFrame_copy. rewrite Hl. fold l'.
  assert (H1 : (<[l' := df]> h) !! l' = Some df) by apply lookup_insert_eq.
  unfold mbind at 1, M_bind at 1, fmap at 1, M_fmap at 1, read at 1.
  rewrite H1.
  unfold mbind at 1, M_bind at 1.
  rewrite (for_each_update (fun c => rename c (Text.normalize c))
             (columns df) l' _ df H1).
  rewrite insert_insert_eq, rename_loop.
  assert (H2 : (<[l' := normalize_columns df]> h) !! l'
               = Some (normalize_columns df)) by apply lookup_insert_eq.
  unfold mbind at 1, M_bind at 1, fmap at 1, M_fmap at 1, read at 1.
  rewrite H2, normalize_columns_columns, Hd.
  unfold mbind at 1, M_bind at 1, mret at 1, M_ret at 1.
  unfold mbind at 1, M_bind at 1, fmap at 1, M_fmap at 1, read at 1.
  rewrite H2.
  unfold mbind at 1, M_bind at 1, fmap at 1, M_fmap at 1, read at 1.
  rewrite H2.
  unfold mbind at 1, M_bind at 1.
  rewrite (strip_loop (select_dtypes_object (normalize_columns df)) l'
             _ (normalize_columns df) H2).
  - rewrite insert_insert_eq, strip_fold
      by (rewrite normalize_columns_columns; exact Hd).
    rewrite validate_rows_spec. reflexivity.
  - rewrite normalize_columns_columns. exact Hd.
  - intros col Hc. unfold select_dtypes_object in Hc.
    apply in_map_iff in Hc as (nc & <- & Hnc).
    apply filter_In in Hnc as [Hin _].
    apply in_map. exact Hin.
Qed.

(** When the normalised labels collide the embedding has no answer. *)
Lemma sanitize_dataframe_stuck (h : gmap loc DataFrame) l df :
  h !! l = Some df ->
  distinct (map Text.normalize (columns df)) = false ->
  sanitize_dataframe' l h = None.
Proof.
  intros Hl Hd. set (l' := fresh (dom h)).
  unfold sanitize_dataframe.
  unfold mbind at 1, M_bind at 1, DataFrame_copy. rewrite Hl. fold l'.
  assert (H1 : (<[l' := df]> h) !! l' = Some df) by apply lookup_insert_eq.
  unfold mbind at 1, M_bind at 1, fmap at 1, M_fmap at 1, read at 1.
  rewrite H1.
  unfold mbind at 1, M_bind at 1.
  rewrite (for_each_update (fun c => rename c (Text.normalize c))
             (columns df) l' _ df H1).
  rewrite insert_insert_eq, rename_loop.
  unfold mbind at 1, M_bind at 1, fmap at 1, M_fmap at 1, read at 1.
  rewrite lookup_insert_eq, normalize_columns_columns, Hd.
  reflexivity.
Qed.

(** What a returned result must be. *)
Lemma sanitize_dataframe_returned (h h' : gmap loc DataFrame) l df l' errors :
  h !! l = Some df ->
  sanitize_dataframe' l h = Some (l', errors, h') ->
  distinct (map Text.normalize (columns df)) = true
  /\ l' = fresh (dom h)
  /\ errors = concat (map row_errors' (iterrows (normalize_columns df)))
  /\ h' = <[fresh (dom h) := sanitized' df]> h.
Proof.
  intros Hl Hs.
  destruct (distinct (map Text.normalize (columns df))) eqn:Hd.
  - rewrite (sanitize_dataframe_spec h l df Hl Hd) in Hs.
    inversion Hs; subst. repeat split; reflexivity.
  - rewrite (sanitize_dataframe_stuck h l df Hl Hd) in Hs. discriminate.
Qed.

(** C8. [sanitize_dataframe] works on a fresh copy: when it returns, the
    frame it was given is in the store exactly as before, labels and
    cells, the result is another object, and no other object of the store
    was touched. *)
Theorem sanitize_leaves_input_unchanged
    (h h' : gmap loc DataFrame) l df l' errors :
  h !! l = Some df ->
  sanitize_dataframe' l h = Some (l', errors, h') ->
  h' !! l = Some df /\ l' <> l /\ h !! l' = None
  /\ forall k, k <> l' -> h' !! k = h !! k.
Proof.
  intros Hl Hs.
  destruct (sanitize_dataframe_returned _ _ _ _ _ _ Hl Hs) as (_ & -> & _ & ->).
  pose proof (fresh_loc_unused h) as Hf.
  assert (Hne : fresh (dom h) <> l) by (intros E; rewrite E in Hf; congruence).
  repeat split.
  - rewrite lookup_insert_ne by exact Hne. exact Hl.
  - exact Hne.
  - exact Hf.
  - intros k Hk. apply lookup_insert_ne. congruence.
Qed.

(** *** Idempotence *)

Lemma objects_strip cells :
  map (fun v => VStr (Text.strip_tags (py_str' v)))
      (map (fun v => VStr (Text.strip_tags (py_str' v))) cells)
  = map (fun v => VStr (Text.strip_tags (py_str' v))) cells.
Proof.
  rewrite map_map. apply map_ext. intros v; simpl.
  rewrite strip_tags_idem. reflexivity.
Qed.

Lemma sanitized_idem df : sanitized' (sanitized' df) = sanitized' df.
Proof.
  destruct df as [idx ser].
  unfold sanitized, strip_objects, normalize_columns; simpl.
  f_equal. rewrite !map_map. apply map_ext. intros [n c]; simpl.
  rewrite normalize_idem. f_equal.
  destruct (is_object c) eqn:Eo; simpl; [|rewrite Eo; reflexivity].
  unfold astype_str_strip; simpl. rewrite objects_strip. reflexivity.
Qed.

Lemma sanitized_columns df :
  columns (sanitized' df) = map Text.normalize (columns df).
Proof.
  unfold columns, sanitized, strip_objects,
    normalize_columns; simpl.
  rewrite !map_map. reflexivity.
Qed.

Lemma map_normalize_idem labels :
  map Text.normalize (map Text.normalize labels) = map Text.normalize labels.
Proof.
  rewrite map_map. apply map_ext. intros n. apply normalize_idem.
Qed.

(** Sanitizing what the sanitizer returned gives the same frame again,
    with or without tags in the frame one started from. *)
Lemma sanitize_twice (h h1 : gmap loc DataFrame) l df l1 e1 :
  h !! l = Some df ->
  sanitize_dataframe' l h = Some (l1, e1, h1) ->
  exists df1, h1 !! l1 = Some df1
    /\ exists l2 e2 h2, sanitize_dataframe' l1 h1 = Some (l2, e2, h2)
         /\ h2 !! l2 = Some df1.
Proof.
  intros Hl Hs.
  destruct (sanitize_dataframe_returned _ _ _ _ _ _ Hl Hs) as (Hd & -> & _ & ->).
  exists (sanitized' df). split; [apply lookup_insert_eq|].
  assert (H1 : (<[fresh (dom h) := sanitized' df]> h) !! fresh (dom h)
               = Some (sanitized' df)) by apply lookup_insert_eq.
  assert (Hd1 : distinct (map Text.normalize (columns (sanitized' df))) = true).
  { rewrite sanitized_columns, map_normalize_idem. exact Hd. }
  eexists _, _, _. split.
  - apply (sanitize_dataframe_spec _ _ _ H1 Hd1).
  - rewrite lookup_insert_eq, sanitized_idem. reflexivity.
Qed.

(** C9. On a table without embedded tags, sanitizing the sanitized table
    yields the sanitized table again. *)
Theorem sanitize_idempotent_on_markup_free
    (h h1 : gmap loc DataFrame) l df l1 e1 :
  h !! l = Some df -> markup_free df ->
  sanitize_dataframe' l h = Some (l1, e1, h1) ->
  exists df1, h1 !! l1 = Some df1
    /\ exists l2 e2 h2, sanitize_dataframe' l1 h1 = Some (l2, e2, h2)
         /\ h2 !! l2 = Some df1.
Proof.
  intros Hl _ Hs. exact (sanitize_twice h h1 l df l1 e1 Hl Hs).
Qed.

(** *** Tags *)

Lemma sanitized_object_cells df n c :
  In (n, c) (series (sanitized' df)) -> is_object c = true ->
  tag_free_strings (objects c).
Proof.
  unfold sanitized, strip_objects, normalize_columns; simpl.
  rewrite map_map. intros Hin Ho.
  apply in_map_iff in Hin as ([n0 c0] & E & _); simpl in E.
  inversion E; subst; clear E.
  destruct (is_object c0) eqn:E0; [|congruence].
  simpl. unfold astype_str_strip, tag_free_strings.
  apply Forall_forall. intros v Hv.
  apply list_elem_of_In in Hv.
  apply in_map_iff in Hv as (v0 & <- & _).
  eexists. split; [reflexivity|apply strip_tags_no_tag].
Qed.

Lemma sanitized_object_column df n c :
  In (n, c) (series df) -> is_object c = true ->
  In (Text.normalize n,
      ColObject (map (fun v => VStr (Text.strip_tags (py_str' v))) (objects c)))
     (series (sanitized' df)).
Proof.
  unfold sanitized, strip_objects, normalize_columns; simpl.
  rewrite map_map. intros Hin Ho.
  apply in_map_iff. exists (n, c). simpl. rewrite Ho. split; [reflexivity|exact Hin].
Qed.

(** C2, as the code has it. In a text column the cell
    ["<script>alert(1)</script>benign"] becomes ["alert(1)benign"]: the two
    tags go, the text between them stays.  In general every column of
    dtype [object] comes back, under its normalised label, with each cell
    turned into its string with all matches of the tag pattern removed, and
    no cell of such a column contains a match of the pattern any more. *)
Theorem sanitized_text_has_no_tags
    (h h' : gmap loc DataFrame) l df l' errors :
  h !! l = Some df ->
  sanitize_dataframe' l h = Some (l', errors, h') ->
  exists df', h' !! l' = Some df'
    /\ (forall n c, In (n, c) (series df) -> is_object c = true ->
          In (Text.normalize n,
              ColObject (map (fun v => VStr (Text.strip_tags (py_str' v)))
                             (objects c)))
             (series df'))
    /\ (forall n c, In (n, c) (series df') -> is_object c = true ->
          tag_free_strings (objects c))
    /\ Text.strip_tags "<script>alert(1)</script>benign"
       = "alert(1)benign"%string.
Proof.
  intros Hl Hs.
  destruct (sanitize_dataframe_returned _ _ _ _ _ _ Hl Hs) as (_ & -> & _ & ->).
  exists (sanitized' df). split; [apply lookup_insert_eq|].
  split; [|split].
  - apply sanitized_object_column.
  - apply sanitized_object_cells.
  - reflexivity.
Qed.

(** *** Rows and their labels *)

Lemma iterrows_labels df r :
  In r (iterrows df) -> map fst (snd r) = columns df.
Proof.
  unfold iterrows. intros Hin. apply list_elem_of_In in Hin.
  apply elem_of_lookup_imap in Hin as (i & idx & -> & _); simpl.
  rewrite map_map. reflexivity.
Qed.

Lemma Series_getitem_present (row : Row) g :
  In g (map fst row) -> exists v, Series_getitem row g = inr v.
Proof.
  induction row as [|[label v] rest IH]; simpl; [contradiction|].
  intros [->|Hin].
  - rewrite String.eqb_refl. eauto.
  - destruct (String.eqb label g); eauto.
Qed.

Lemma Series_getitem_absent (row : Row) g :
  ~ In g (map fst row) -> Series_getitem row g = inl g.
Proof.
  induction row as [|[label v] rest IH]; simpl; [reflexivity|].
  intros Hn. destruct (String.eqb_spec label g) as [->|_].
  - exfalso. apply Hn. left; reflexivity.
  - apply IH. intros Hin. apply Hn. right; exact Hin.
Qed.

Lemma split_missing_at (row : Row) before f after :
  (forall g, In g before -> In g (map fst row)) ->
  ~ In f (map fst row) ->
  split_missing row (before ++ f :: after) = (before, Some f).
Proof.
  induction before as [|g rest IH]; simpl; intros Hb Hf.
  - rewrite (Series_getitem_absent row f Hf). reflexivity.
  - destruct (Series_getitem_present row g) as [v Hv]; [apply Hb; left; reflexivity|].
    rewrite Hv, IH; [reflexivity| |exact Hf].
    intros g' Hg'. apply Hb. right; exact Hg'.
Qed.

Lemma split_missing_none (row : Row) fields :
  (forall g, In g fields -> In g (map fst row)) ->
  split_missing row fields = (fields, None).
Proof.
  induction fields as [|g rest IH]; simpl; intros Hb; [reflexivity|].
  destruct (Series_getitem_present row g) as [v Hv]; [apply Hb; left; reflexivity|].
  rewrite Hv, IH; [reflexivity|].
  intros g' Hg'. apply Hb. right; exact Hg'.
Qed.

Lemma field_errors_invalid idx row g m :
  In m (field_errors' idx row g) -> exists v, m = invalid_message' g idx v.
Proof.
  unfold field_errors.
  destruct (Series_getitem row g) as [e|v]; [contradiction|].
  destruct (valid_for' g v); [contradiction|].
  intros [<-|[]]. eauto.
Qed.

Lemma invalid_is_not_missing g idx v f :
  invalid_message' g idx v <> missing_message f.
Proof. unfold invalid_message, missing_message. simpl. discriminate. Qed.

(** C5, as the code has it. When a required field is absent from the
    (normalised) columns, every row gets the errors of the fields that are
    read before the first absent one, then exactly one message
    [Missing required column: '<field>'], the name in quotes, for that
    field, and nothing for the fields after it; the rows are handled one
    by one, and the tags are stripped from all rows as always. *)
Theorem missing_field_short_circuits_row
    (h h' : gmap loc DataFrame) l df l' errors before f after :
  h !! l = Some df ->
  sanitize_dataframe' l h = Some (l', errors, h') ->
  FIELD_ORDER = (before ++ f :: after)%list ->
  (forall g, In g before -> In g (map Text.normalize (columns df))) ->
  ~ In f (map Text.normalize (columns df)) ->
  errors
  = concat (map (fun r =>
      (concat (map (field_errors' (fst r) (snd r)) before)
       ++ [("Missing required column: '" ++ f ++ "'")%string])%list)
      (iterrows (normalize_columns df)))
  /\ (forall idx row g m, In m (field_errors' idx row g) ->
        (exists v, m = invalid_message' g idx v)
        /\ forall f', m <> missing_message f')
  /\ h' !! l' = Some (sanitized' df).
Proof.
  intros Hl Hs Hord Hb Hf.
  destruct (sanitize_dataframe_returned _ _ _ _ _ _ Hl Hs) as (_ & -> & -> & ->).
  split; [|split].
  - f_equal. apply map_ext_in. intros r Hr.
    unfold row_errors. rewrite Hord.
    pose proof (iterrows_labels _ _ Hr) as Hlab.
    rewrite normalize_columns_columns in Hlab.
    rewrite split_missing_at; [reflexivity| |]; rewrite Hlab; assumption.
  - intros idx row g m Hm.
    destruct (field_errors_invalid idx row g m Hm) as [v ->].
    split; [eauto|]. intros f'. apply invalid_is_not_missing.
  - apply lookup_insert_eq.
Qed.

(** *** Valid uploads *)

Lemma concat_all_nil {A B : Type} (f : A -> list B) items :
  (forall x, In x items -> f x = []) -> concat (map f items) = [].
Proof.
  induction items as [|x rest IH]; simpl; intros H; [reflexivity|].
  rewrite (H x) by (left; reflexivity). apply IH.
  intros y Hy. apply H. right; exact Hy.
Qed.

Lemma row_errors_valid (r : PyVal * Row) :
  (forall g, In g FIELD_ORDER -> In g (map fst (snd r))) ->
  row_valid' r -> row_errors' r = [].
Proof.
  intros Hlab Hv. unfold row_errors.
  rewrite (split_missing_none (snd r) FIELD_ORDER Hlab), app_nil_r.
  apply concat_all_nil. intros g Hg. unfold field_errors.
  destruct (Series_getitem_present (snd r) g (Hlab g Hg)) as [v Ev].
  rewrite Ev, (Hv g v Hg Ev). reflexivity.
Qed.

Lemma field_order_required g : In g FIELD_ORDER -> In g REQUIRED_COLUMNS.
Proof. unfold FIELD_ORDER, numeric_fields, REQUIRED_COLUMNS. simpl. tauto. Qed.

Lemma filter_none {A : Type} (p : A -> bool) items :
  (forall x, In x items -> p x = false) -> List.filter p items = [].
Proof.
  induction items as [|x rest IH]; simpl; intros H; [reflexivity|].
  rewrite (H x) by (left; reflexivity). apply IH.
  intros y Hy. apply H. right; exact Hy.
Qed.

Lemma missing_columns_none df :
  (forall g, In g REQUIRED_COLUMNS -> In g (columns df)) ->
  missing_columns df = [].
Proof.
  intros H. unfold missing_columns. apply filter_none. intros g Hg.
  apply negb_false_iff, existsb_exists. exists (Text.lower g). split.
  - apply in_map, H, Hg.
  - apply String.eqb_refl.
Qed.

Lemma to_dict_records_length df :
  List.length (to_dict_records df) = List.length (index df).
Proof. unfold to_dict_records. apply length_imap. Qed.

Lemma to_dict_records_dicts df : Forall is_dict (to_dict_records df).
Proof.
  apply Forall_forall. intros o Ho. unfold to_dict_records in Ho.
  apply elem_of_lookup_imap in Ho as (i & idx & -> & _). exact I.
Qed.

Lemma sanitized_well_formed df : well_formed df -> well_formed (sanitized' df).
Proof.
  unfold well_formed, sanitized, strip_objects,
    normalize_columns; simpl.
  rewrite map_map. intros H. apply Forall_forall. intros nc Hnc.
  apply list_elem_of_In, in_map_iff in Hnc as ([n c] & <- & Hin); simpl.
  rewrite Forall_forall in H.
  specialize (H (n, c) (proj2 (list_elem_of_In _ _) Hin)); simpl in H.
  destruct (is_object c); [|exact H].
  simpl. unfold astype_str_strip. rewrite length_map.
  rewrite <- H. destruct c; simpl; rewrite ?length_map; reflexivity.
Qed.

(** *** The gateway *)

Lemma posts_app w1 w2 : posts (w1 ++ w2) = (posts w1 ++ posts w2)%list.
Proof. unfold posts. apply omap_app. Qed.

(** The JSON encoder on arrays, objects and cells. *)
Lemma json_dumps_list items :
  Forall (fun o => json_dumps_error o = None) items ->
  json_dumps_error (OList items) = None.
Proof.
  induction 1 as [|o rest Ho _ IH]; simpl; [reflexivity|].
  rewrite Ho. exact IH.
Qed.

Lemma json_dumps_dict (items : list (string * pyobj)) :
  Forall (fun kv => json_dumps_error (snd kv) = None) items ->
  json_dumps_error (ODict items) = None.
Proof.
  induction 1 as [|[k o] rest Ho _ IH]; simpl; [reflexivity|].
  simpl in Ho. rewrite Ho. exact IH.
Qed.

Lemma nth_dumps (cells : list PyVal) i :
  Forall (fun v => val_dumps_error v = None) cells ->
  val_dumps_error (nth i cells VNone) = None.
Proof.
  intros H. revert i. induction H as [|v rest Hv _ IH]; intros [|i]; simpl;
    try reflexivity; [exact Hv|apply IH].
Qed.

(** The cells of a sanitized column are serialisable when the floats among
    them are finite. *)
Lemma sanitized_cells_dumps (c : Column) :
  match c with ColFloat64 v => forallb is_finite v | _ => true end = true ->
  Forall (fun v => val_dumps_error v = None)
    (objects (if is_object c then ColObject (astype_str_strip' c) else c)).
Proof.
  destruct c as [v|v|v|v]; simpl; intros H.
  - apply List.Forall_forall. intros x Hx. apply in_map_iff in Hx as (b & <- & _).
    reflexivity.
  - apply List.Forall_forall. intros x Hx. apply in_map_iff in Hx as (z & <- & _).
    reflexivity.
  - apply List.Forall_forall. intros x Hx. apply in_map_iff in Hx as (f & <- & Hf).
    rewrite forallb_forall in H. specialize (H f Hf).
    destruct f; [discriminate|discriminate|reflexivity].
  - apply List.Forall_forall. intros x Hx. unfold astype_str_strip in Hx.
    apply in_map_iff in Hx as (y & <- & _). reflexivity.
Qed.

(** What [requests] serialises for a sanitized table without NaN or
    infinite floats. *)
Lemma sanitized_payload_dumps df :
  finite_floats df = true ->
  json_dumps_error (OList [OList (to_dict_records (sanitized' df))]) = None.
Proof.
  intros Hf. apply json_dumps_list. constructor; [|constructor].
  apply json_dumps_list. unfold to_dict_records.
  apply List.Forall_forall. intros o Ho.
  apply list_elem_of_In, elem_of_lookup_imap in Ho as (i & idx & -> & _).
  apply json_dumps_dict. apply List.Forall_forall. intros kv Hkv.
  apply in_map_iff in Hkv as (nc & <- & Hnc). simpl.
  unfold sanitized, strip_objects, normalize_columns in Hnc. simpl in Hnc.
  rewrite map_map in Hnc. apply in_map_iff in Hnc as (nc0 & <- & Hnc0). simpl.
  apply nth_dumps, sanitized_cells_dumps.
  unfold finite_floats in Hf. rewrite forallb_forall in Hf.
  exact (Hf nc0 Hnc0).
Qed.

(** A call whose request can be prepared posts it, once. *)
Lemma call_serve_api_func_posts input_data w :
  preparation_error' = None ->
  json_dumps_error (OList [input_data]) = None ->
  posts (snd (call_serve_api_func' input_data w))
  = (posts w ++ [request_for' input_data])%list.
Proof.
  intros Hp Hj. unfold call_serve_api_func.
  fold (request_headers key_data).
  fold (preparation_error SERVING_API key_data prepare_raises).
  fold (request_for' input_data). rewrite Hp, Hj.
  destruct (endpoint (request_for' input_data)) as [status text body|]; simpl.
  - destruct ((400 <=? status)%Z && (status <? 600)%Z); simpl.
    + rewrite !posts_app; simpl. rewrite app_nil_r. reflexivity.
    + destruct body; simpl; rewrite posts_app; reflexivity.
  - rewrite posts_app; reflexivity.
Qed.

(** A call whose request cannot be prepared posts nothing. *)
Lemma call_serve_api_func_unprepared input_data w e :
  preparation_error' = Some e
  \/ (preparation_error' = None /\ json_dumps_error (OList [input_data]) = Some e) ->
  call_serve_api_func' input_data w = (Raised e, w).
Proof.
  unfold call_serve_api_func.
  fold (request_headers key_data).
  fold (preparation_error SERVING_API key_data prepare_raises).
  intros [Hp|[Hp Hj]]; rewrite Hp; [reflexivity|].
  rewrite Hj. reflexivity.
Qed.

Lemma wrapper_let_through {A B W : Type} (func : A -> W -> outcome B * W)
    self now args w :
  (Z.of_nat (List.length (RateLimiter.evict now (RateLimiter.time_window self)
                            (RateLimiter.calls self)))
   < RateLimiter.max_calls self)%Z ->
  RateLimiter.wrapper func self now args w
  = (fst (func args w),
     RateLimiter.mk (RateLimiter.max_calls self) (RateLimiter.time_window self)
       (RateLimiter.evict now (RateLimiter.time_window self)
          (RateLimiter.calls self) ++ [now]),
     snd (func args w)).
Proof.
  intros Hlt. unfold RateLimiter.wrapper, RateLimiter.critical_section.
  destruct (Z.leb_spec (RateLimiter.max_calls self)
              (Z.of_nat (List.length (RateLimiter.evict now
                 (RateLimiter.time_window self) (RateLimiter.calls self)))));
    [lia|].
  destruct (func args w); reflexivity.
Qed.

Lemma sanitized_index df : index (sanitized' df) = index df.
Proof. reflexivity. Qed.

(** Valid rows under a complete header leave no error. *)
Lemma valid_rows_no_errors df :
  (forall g, In g REQUIRED_COLUMNS -> In g (map Text.normalize (columns df))) ->
  (forall r, In r (iterrows (normalize_columns df)) -> row_valid' r) ->
  concat (map row_errors' (iterrows (normalize_columns df))) = [].
Proof.
  intros Hreq Hval. apply concat_all_nil. intros r Hr.
  apply row_errors_valid; [|apply Hval, Hr].
  intros g Hg. rewrite (iterrows_labels _ _ Hr), normalize_columns_columns.
  apply Hreq, field_order_required, Hg.
Qed.

(** C1, as the code has it. A 5-row upload whose (normalised) columns
    include all required fields and whose rows are all valid comes out of
    the sanitizer as a table of 5 rows with an empty error list.  When,
    besides, no float cell of the table is NaN or infinite (validity does
    not exclude it: [validate_numeric] accepts infinity and columns outside
    the schema are not tested; [requests] refuses to serialise such a cell),
    the URL and the headers are accepted by [requests], and the limiter has
    room, handling the upload makes exactly one gateway call: one timestamp
    is recorded and one request is posted.  The JSON body of that request
    is an array of one element, and that element is the array of the 5
    records, one object per record. *)
Theorem valid_upload_is_forwarded_once
    (h : gmap loc DataFrame) l df now rl w :
  h !! l = Some df -> well_formed df -> List.length (index df) = 5%nat ->
  distinct (map Text.normalize (columns df)) = true ->
  (forall g, In g REQUIRED_COLUMNS -> In g (map Text.normalize (columns df))) ->
  (forall r, In r (iterrows (normalize_columns df)) -> row_valid' r) ->
  finite_floats df = true ->
  preparation_error' = None ->
  (Z.of_nat (List.length (RateLimiter.evict now (RateLimiter.time_window rl)
                            (RateLimiter.calls rl)))
   < RateLimiter.max_calls rl)%Z ->
  exists l' h' clean,
    sanitize_dataframe' l h = Some (l', [], h')
    /\ h' !! l' = Some clean
    /\ well_formed clean
    /\ List.length (index clean) = 5%nat
    /\ exists pg rl' w',
         process_upload' l now (mkState h rl w) = Some (pg, mkState h' rl' w')
         /\ RateLimiter.calls rl'
            = (RateLimiter.evict now (RateLimiter.time_window rl)
                 (RateLimiter.calls rl) ++ [now])%list
         /\ posts w' = (posts w ++ [request_for' (OList (to_dict_records clean))])%list
         /\ json (request_for' (OList (to_dict_records clean)))
            = OList [OList (to_dict_records clean)]
         /\ List.length (to_dict_records clean) = 5%nat
         /\ Forall is_dict (to_dict_records clean).
Proof.
  intros Hl Hwf Hlen Hd Hreq Hval Hfin Hprep Hroom.
  pose proof (sanitize_dataframe_spec h l df Hl Hd) as Hs.
  rewrite (valid_rows_no_errors df Hreq Hval) in Hs.
  exists (fresh (dom h)), (<[fresh (dom h) := sanitized' df]> h), (sanitized' df).
  split; [exact Hs|].
  split; [apply lookup_insert_eq|].
  split; [apply sanitized_well_formed, Hwf|].
  split; [exact Hlen|].
  unfold process_upload; simpl. rewrite Hs, lookup_insert_eq.
  rewrite missing_columns_none
    by (intros g Hg; rewrite sanitized_columns; apply Hreq, Hg).
  rewrite sanitized_index, Hlen. simpl.
  unfold call_serve_api. rewrite (wrapper_let_through _ _ _ _ _ Hroom).
  set (payload := OList (to_dict_records (sanitized' df))).
  set (w1 := (w ++ [StSuccess _])%list).
  pose proof (call_serve_api_func_posts payload w1 Hprep
                (sanitized_payload_dumps df Hfin)) as Hp.
  assert (Hw1 : posts w1 = posts w).
  { unfold w1. rewrite posts_app. simpl. apply app_nil_r. }
  rewrite Hw1 in Hp.
  assert (Hrec : List.length (to_dict_records (sanitized' df)) = 5%nat)
    by (rewrite to_dict_records_length; exact Hlen).
  destruct (call_serve_api_func' payload w1) as [[r|e] w2]; simpl in Hp |- *.
  - destruct r as [results|];
      [destruct (truthy (Some results));
         [destruct (read_json_raises results)|]|];
      eexists _, _, _;
      (split; [reflexivity|]); (split; [reflexivity|]);
      (split; [rewrite ?posts_app, Hp; simpl; rewrite ?app_nil_r; reflexivity|]);
      (split; [reflexivity|]);
      (split; [exact Hrec|apply to_dict_records_dicts]).
  - eexists _, _, _;
      (split; [reflexivity|]); (split; [reflexivity|]);
      (split; [exact Hp|]);
      (split; [reflexivity|]);
      (split; [exact Hrec|apply to_dict_records_dicts]).
Qed.

(** The [Authorization] header of every request the gateway posts is
    ["Bearer f"] followed by the credential; [Content-Type] is
    [application/json]. *)
Lemma posted_headers input_data :
  authorization (request_for' input_data)
  = Some ("Bearer f" ++ str_key_data')%string
  /\ content_type (request_for' input_data) = Some "application/json"%string.
Proof. split; reflexivity. Qed.

End Properties.

(** ** The sample upload *)

Lemma sanitize_leaves_input_unchanged_witness :
  (<[2%positive := sanitized Sample.repr_float Sample.plain]>
     (Sample.store_of Sample.plain)) !! Sample.place = Some Sample.plain
  /\ 2%positive <> Sample.place
  /\ Sample.store_of Sample.plain !! 2%positive = None
  /\ forall k, k <> 2%positive ->
       (<[2%positive := sanitized Sample.repr_float Sample.plain]>
          (Sample.store_of Sample.plain)) !! k
       = Sample.store_of Sample.plain !! k.
Proof.
  apply (sanitize_leaves_input_unchanged Sample.repr_float
           Sample.ip_address_parses Sample.strptime_parses
           (Sample.store_of Sample.plain) _ Sample.place Sample.plain
           2%positive ["Missing required column: 'dest_ip'"%string]).
  - reflexivity.
  - vm_compute. reflexivity.
Defined.

Lemma sample_plain_markup_free : markup_free Sample.plain.
Proof.
  intros name cells s Hin Hs. simpl in Hin.
  destruct Hin as [E|[E|[E|[]]]]; inversion E; subst; simpl in Hs;
    destruct Hs as [E'|[]]; inversion E'; reflexivity.
Qed.

Lemma sanitize_idempotent_on_markup_free_witness :
  markup_free Sample.plain
  /\ exists df1,
       (<[2%positive := sanitized Sample.repr_float Sample.plain]>
          (Sample.store_of Sample.plain)) !! 2%positive = Some df1
       /\ exists l2 e2 h2,
            sanitize_dataframe Sample.repr_float Sample.ip_address_parses
              Sample.strptime_parses 2%positive
              (<[2%positive := sanitized Sample.repr_float Sample.plain]>
                 (Sample.store_of Sample.plain))
            = Some (l2, e2, h2)
            /\ h2 !! l2 = Some df1.
Proof.
  split; [exact sample_plain_markup_free|].
  apply (sanitize_idempotent_on_markup_free Sample.repr_float
           Sample.ip_address_parses Sample.strptime_parses
           (Sample.store_of Sample.plain) _ Sample.place Sample.plain
           2%positive ["Missing required column: 'dest_ip'"%string]).
  - reflexivity.
  - exact sample_plain_markup_free.
  - vm_compute. reflexivity.
Defined.

(** The claim C2 says the cell becomes ["benign"]; the text between the two
    tags is not a tag and stays. *)
Lemma script_content_survives :
  Sample.sanitized_cell Sample.tagged "note" 0
  = Some (VStr "alert(1)benign")
  /\ Sample.sanitized_cell Sample.tagged "note" 0 <> Some (VStr "benign").
Proof. split; [vm_compute; reflexivity|vm_compute; discriminate]. Qed.

Lemma sanitized_text_has_no_tags_witness :
  exists df',
    (<[2%positive := sanitized Sample.repr_float Sample.tagged]>
       (Sample.store_of Sample.tagged)) !! 2%positive = Some df'
    /\ (forall n c, In (n, c) (series Sample.tagged) -> is_object c = true ->
          In (Text.normalize n,
              ColObject (map (fun v => VStr (Text.strip_tags
                                               (py_str Sample.repr_float v)))
                             (objects c)))
             (series df'))
    /\ (forall n c, In (n, c) (series df') -> is_object c = true ->
          tag_free_strings (objects c))
    /\ Text.strip_tags "<script>alert(1)</script>benign"
       = "alert(1)benign"%string.
Proof.
  apply (sanitized_text_has_no_tags Sample.repr_float
           Sample.ip_address_parses Sample.strptime_parses
           (Sample.store_of Sample.tagged) _ Sample.place Sample.tagged
           2%positive ["Missing required column: 'src_ip'"%string]).
  - reflexivity.
  - vm_compute. reflexivity.
Defined.

(** The claim C5 gives the message as the bare field name; the code renders
    the [KeyError], which puts the name in quotes.  The second row also
    shows an error of a field read before the absent one. *)
Lemma missing_message_is_quoted :
  Sample.errors_of Sample.upload_without_dest_port
  = Some ["Missing required column: 'dest_port'"%string;
          "Invalid source IP at row 1: 999.999.999.999"%string;
          "Missing required column: 'dest_port'"%string]
  /\ Sample.errors_of Sample.upload_without_dest_port
     <> Some ["Missing required column: dest_port"%string;
              "Invalid source IP at row 1: 999.999.999.999"%string;
              "Missing required column: dest_port"%string].
Proof. split; [vm_compute; reflexivity|vm_compute; discriminate]. Qed.

Lemma missing_field_short_circuits_row_witness :
  ["Missing required column: 'dest_port'"%string;
   "Invalid source IP at row 1: 999.999.999.999"%string;
   "Missing required column: 'dest_port'"%string]
  = concat (map (fun r =>
      (concat (map (field_errors Sample.repr_float Sample.ip_address_parses
                      Sample.strptime_parses (fst r) (snd r))
                   ["src_ip"; "dest_ip"; "src_port"]%string)
       ++ ["Missing required column: 'dest_port'"%string])%list)
      (iterrows (normalize_columns Sample.upload_without_dest_port)))
  /\ (forall idx row g m,
        In m (field_errors Sample.repr_float Sample.ip_address_parses
                Sample.strptime_parses idx row g) ->
        (exists v, m = invalid_message Sample.repr_float g idx v)
        /\ forall f', m <> missing_message f')
  /\ (<[2%positive := sanitized Sample.repr_float Sample.upload_without_dest_port]>
        (Sample.store_of Sample.upload_without_dest_port)) !! 2%positive
     = Some (sanitized Sample.repr_float Sample.upload_without_dest_port).
Proof.
  apply (missing_field_short_circuits_row Sample.repr_float
    Sample.ip_address_parses Sample.strptime_parses
    (Sample.store_of Sample.upload_without_dest_port)
    (<[2%positive := sanitized Sample.repr_float Sample.upload_without_dest_port]>
       (Sample.store_of Sample.upload_without_dest_port))
    Sample.place Sample.upload_without_dest_port 2%positive
    ["Missing required column: 'dest_port'"%string;
     "Invalid source IP at row 1: 999.999.999.999"%string;
     "Missing required column: 'dest_port'"%string]
    ["src_ip"; "dest_ip"; "src_port"]%string "dest_port"%string
    ["timestamp"; "flow_dur"; "fwd_bytes"; "bwd_bytes"; "total_bwd_pkts";
     "total_fwd_pkts"]%string).
  - reflexivity.
  - vm_compute. reflexivity.
  - reflexivity.
  - intros g Hg. vm_compute in Hg. vm_compute.
    destruct Hg as [<-|[<-|[<-|[]]]]; tauto.
  - vm_compute. intros Hin.
    repeat (destruct Hin as [Hin|Hin]; [discriminate|]). exact Hin.
Defined.

(** The claim C1 says the body is the 5-element array of records; the code
    posts [json=[input_data]], an array whose only element is that array. *)
Lemma gateway_body_is_singleton :
  Sample.errors_of Sample.upload = Some []
  /\ exists req,
       Sample.posted Sample.upload 0%Q = Some [req]
       /\ array_length (json req) = Some 1%nat
       /\ array_length (json req) <> Some 5%nat.
Proof.
  split; [vm_compute; reflexivity|].
  eexists. split; [vm_compute; reflexivity|].
  split; [reflexivity|discriminate].
Qed.

Lemma sample_upload_rows_valid r :
  In r (iterrows (normalize_columns Sample.upload)) ->
  row_valid Sample.repr_float Sample.ip_address_parses Sample.strptime_parses r.
Proof.
  intros Hr. vm_compute in Hr.
  repeat (destruct Hr as [<-|Hr];
    [intros field v Hf Hg; vm_compute in Hf;
     repeat (destruct Hf as [<-|Hf];
       [vm_compute in Hg; inversion Hg; subst; vm_compute; reflexivity|]);
     destruct Hf|]).
  destruct Hr.
Qed.

Lemma valid_upload_is_forwarded_once_witness :
  exists l' h' clean,
    sanitize_dataframe Sample.repr_float Sample.ip_address_parses
      Sample.strptime_parses Sample.place (Sample.store_of Sample.upload)
    = Some (l', [], h')
    /\ h' !! l' = Some clean
    /\ well_formed clean
    /\ List.length (index clean) = 5%nat
    /\ exists pg rl' w',
         Sample.process Sample.upload 0%Q = Some (pg, mkState h' rl' w')
         /\ RateLimiter.calls rl' = [0%Q]
         /\ posts w'
            = [request_for (Some "https://serving.example/classify"%string)
                 (Some "secret"%string) (OList (to_dict_records clean))]
         /\ json (request_for (Some "https://serving.example/classify"%string)
                    (Some "secret"%string) (OList (to_dict_records clean)))
            = OList [OList (to_dict_records clean)]
         /\ List.length (to_dict_records clean) = 5%nat
         /\ Forall is_dict (to_dict_records clean).
Proof.
  apply (valid_upload_is_forwarded_once Sample.repr_float
           Sample.ip_address_parses Sample.strptime_parses
           (Some "https://serving.example/classify"%string)
           (Some "secret"%string)
           Sample.endpoint Sample.prepare_raises Sample.read_json_raises
           (Sample.store_of Sample.upload) Sample.place
           Sample.upload 0%Q api_rate_limiter []).
  - reflexivity.
  - unfold well_formed. simpl. repeat constructor.
  - reflexivity.
  - vm_compute. reflexivity.
  - intros g Hg. vm_compute in Hg. vm_compute.
    repeat (destruct Hg as [<-|Hg]; [tauto|]). destruct Hg.
  - exact sample_upload_rows_valid.
  - reflexivity.
  - reflexivity.
  - vm_compute. reflexivity.
Defined.

(** C7, at the credential ["secret"]. The [Authorization] header that is
    sent is ["Bearer fsecret"], not ["Bearer secret"]: the f-string of
    [call_serve_api] has a letter [f] between [Bearer ] and the credential.
    [Content-Type] is [application/json]. *)
Theorem authorization_header_has_stray_f :
  exists req,
    Sample.posted Sample.upload 0%Q = Some [req]
    /\ authorization req = Some "Bearer fsecret"%string
    /\ authorization req <> Some "Bearer secret"%string
    /\ content_type req = Some "application/json"%string.
Proof.
  eexists. split; [vm_compute; reflexivity|].
  split; [reflexivity|]. split; [discriminate|reflexivity].
Qed.

(** ** More on the rate limiter *)

Lemma aged_iff now tw c :
  aged now tw c = true <-> (inject_Z tw <= now - c)%Q.
Proof. unfold aged. apply Qle_bool_iff. Qed.

Lemma aged_false_iff now tw c :
  aged now tw c = false <-> (now - c < inject_Z tw)%Q.
Proof.
  unfold aged. split; intros H.
  - apply Qnot_le_lt. intros Hle. apply Qle_bool_iff in Hle. congruence.
  - destruct (Qle_bool (inject_Z tw) (now - c)) eqn:E; [|reflexivity].
    apply Qle_bool_iff in E. exfalso. apply (Qlt_not_le _ _ H E).
Qed.

Lemma aged_later now now' tw c :
  (now <= now')%Q -> aged now tw c = true -> aged now' tw c = true.
Proof. rewrite !aged_iff. intros Hle H. lra. Qed.

(** The eviction loop pops a prefix of the deque, all of it aged. *)
Lemma evict_split now tw cs :
  exists gone, cs = (gone ++ RateLimiter.evict now tw cs)%list
    /\ Forall (fun c => aged now tw c = true) gone.
Proof.
  induction cs as [|c rest IH]; simpl.
  - exists []. split; [reflexivity|constructor].
  - destruct (Qle_bool (inject_Z tw) (now - c)) eqn:E.
    + destruct IH as (gone & Heq & Hg). exists (c :: gone). split.
      * simpl. f_equal. exact Heq.
      * constructor; [exact E|exact Hg].
    + exists []. split; [reflexivity|constructor].
Qed.

Lemma Qle_strongly_sorted cs : Sorted Qle cs -> StronglySorted Qle cs.
Proof. apply Sorted_StronglySorted. intros x y z. apply Qle_trans. Qed.

(** On an ordered deque what the loop leaves is younger than the window. *)
Lemma evict_young now tw cs :
  StronglySorted Qle cs ->
  Forall (fun c => aged now tw c = false) (RateLimiter.evict now tw cs).
Proof.
  induction 1 as [|c rest Hs IH Hall]; simpl; [constructor|].
  destruct (Qle_bool (inject_Z tw) (now - c)) eqn:E; [exact IH|].
  assert (Hc : aged now tw c = false) by exact E.
  constructor; [exact Hc|].
  eapply Forall_impl; [exact Hall|].
  intros c' Hle. simpl in Hle. apply aged_false_iff.
  apply aged_false_iff in Hc. lra.
Qed.

(** X6. The eviction loop of [wrapper] splits an ordered deque at the
    window: the entries it pops are exactly a prefix, each of them at least
    [time_window] old at [now], and every entry it leaves is younger than
    [time_window]. *)
Theorem eviction_splits_at_the_window now tw cs :
  Sorted Qle cs ->
  exists gone,
    cs = (gone ++ RateLimiter.evict now tw cs)%list
    /\ Forall (fun c => inject_Z tw <= now - c)%Q gone
    /\ Forall (fun c => now - c < inject_Z tw)%Q (RateLimiter.evict now tw cs).
Proof.
  intros Hs. destruct (evict_split now tw cs) as (gone & Heq & Hg).
  exists gone. split; [exact Heq|]. split.
  - eapply Forall_impl; [exact Hg|]. intros c Hc. apply aged_iff, Hc.
  - eapply Forall_impl; [apply evict_young, Qle_strongly_sorted, Hs|].
    intros c Hc. apply aged_false_iff, Hc.
Qed.

Lemma within_window_app now tw a b :
  within_window now tw (a ++ b)
  = (within_window now tw a + within_window now tw b)%nat.
Proof. unfold within_window. rewrite List.filter_app, length_app. reflexivity. Qed.

Lemma within_window_aged now tw old :
  Forall (fun c => aged now tw c = true) old -> within_window now tw old = 0%nat.
Proof.
  unfold within_window. induction 1 as [|c rest Hc _ IH]; simpl; [reflexivity|].
  rewrite Hc. exact IH.
Qed.

Lemma within_window_le now tw cs :
  (within_window now tw cs <= List.length cs)%nat.
Proof. unfold within_window. apply List.filter_length_le. Qed.

(** Every attempt let through so far is either still in the deque or has
    been popped, and then it is aged at every later reading. *)
Lemma run_accounts nows :
  forall self old now,
  StronglySorted Qle (nows ++ [now]) ->
  Forall (fun c => aged now (RateLimiter.time_window self) c = true) old ->
  exists old',
    (old ++ RateLimiter.calls self ++ admitted_in_run self (nows ++ [now]))%list
    = (old' ++ RateLimiter.calls (run_attempts self (nows ++ [now])))%list
    /\ Forall (fun c => aged now (RateLimiter.time_window self) c = true) old'.
Proof.
  induction nows as [|n rest IH]; intros self old now Hs Hold.
  - simpl. unfold run_attempts; simpl.
    destruct (evict_split now (RateLimiter.time_window self)
                (RateLimiter.calls self)) as (gone & Heq & Hg).
    exists (old ++ gone)%list. split; [|apply Forall_app; split; assumption].
    unfold RateLimiter.critical_section.
    destruct (RateLimiter.max_calls self <=? _)%Z; simpl;
      rewrite Heq at 1; rewrite ?app_nil_r, <- ?app_assoc; reflexivity.
  - simpl in Hs. inversion Hs as [|? ? Hs' Hall]; subst.
    assert (Hn : (n <= now)%Q).
    { apply Forall_app in Hall. destruct Hall as [_ Hl].
      inversion Hl; assumption. }
    destruct (evict_split n (RateLimiter.time_window self)
                (RateLimiter.calls self)) as (gone & Heq & Hg).
    assert (Hg' : Forall (fun c => aged now (RateLimiter.time_window self) c = true)
                    (old ++ gone)%list).
    { apply Forall_app; split; [exact Hold|].
      eapply Forall_impl; [exact Hg|]. intros c Hc. simpl in Hc.
      eapply aged_later; eassumption. }
    pose proof (critical_section_time_window self n) as Htw.
    specialize (IH (snd (RateLimiter.critical_section self n)) (old ++ gone)%list now Hs').
    rewrite Htw in IH. destruct (IH Hg') as (old' & Heq' & Hold').
    exists old'. split; [|exact Hold'].
    change (run_attempts self ((n :: rest) ++ [now]))
      with (run_attempts (snd (RateLimiter.critical_section self n)) (rest ++ [now])).
    rewrite <- Heq'. simpl.
    unfold RateLimiter.critical_section.
    destruct (RateLimiter.max_calls self <=? _)%Z; simpl;
      rewrite Heq at 1; rewrite ?app_nil_r, <- ?app_assoc; reflexivity.
Qed.

(** X7. The sliding-window guarantee of [RateLimiter].  Start from a fresh
    limiter and make attempts at clock readings that never go back.  At
    every attempt, the attempts let through so far (this one included)
    whose age is below [time_window] number at most [max_calls] (none, for
    a negative [max_calls]). *)
Theorem never_more_than_max_calls_in_a_window mc tw nows now :
  Sorted Qle (nows ++ [now]) ->
  (Z.of_nat (within_window now tw
               (admitted_in_run (RateLimiter.init mc tw) (nows ++ [now])))
   <= Z.max 0 mc)%Z.
Proof.
  intros Hs.
  destruct (run_accounts nows (RateLimiter.init mc tw) [] now
              (Qle_strongly_sorted _ Hs) (List.Forall_nil _))
    as (old' & Heq & Hold).
  simpl in Heq, Hold. rewrite Heq, within_window_app.
  rewrite (within_window_aged _ _ _ Hold). simpl.
  pose proof (reachable_shape mc tw _
                (reachable_run mc tw _ (nows ++ [now])
                   (RateLimiter.reach_init mc tw))) as (_ & _ & Hlen).
  pose proof (within_window_le now tw
                (RateLimiter.calls (run_attempts (RateLimiter.init mc tw)
                                      (nows ++ [now])))).
  lia.
Qed.

Lemma run_attempts_length nows :
  forall self,
  (List.length (RateLimiter.calls (run_attempts self nows))
   <= List.length (RateLimiter.calls self) + List.length nows)%nat.
Proof.
  induction nows as [|n rest IH]; intros self; [simpl; lia|].
  change (run_attempts self (n :: rest))
    with (run_attempts (snd (RateLimiter.critical_section self n)) rest).
  specialize (IH (snd (RateLimiter.critical_section self n))).
  assert (List.length (RateLimiter.calls (snd (RateLimiter.critical_section self n)))
          <= S (List.length (RateLimiter.calls self)))%nat.
  { unfold RateLimiter.critical_section.
    pose proof (evict_length n (RateLimiter.time_window self) (RateLimiter.calls self)).
    destruct (RateLimiter.max_calls self <=? _)%Z; simpl;
      rewrite ?length_app; simpl; lia. }
  simpl. lia.
Qed.

(** X8. Burst capacity.  Whatever the clock readings, every one of the
    first [max_calls] guarded calls on a fresh limiter is let through: the
    wrapped function runs and the reading is recorded. *)
Theorem fresh_limiter_lets_first_calls_through {A B W : Type}
    (func : A -> W -> outcome B * W) mc tw nows now args w :
  (Z.of_nat (List.length nows) < mc)%Z ->
  RateLimiter.wrapper func (run_attempts (RateLimiter.init mc tw) nows) now args w
  = (fst (func args w),
     RateLimiter.mk mc tw
       (RateLimiter.evict now tw
          (RateLimiter.calls (run_attempts (RateLimiter.init mc tw) nows))
        ++ [now]),
     snd (func args w)).
Proof.
  intros Hlt.
  pose proof (reachable_shape mc tw _
                (reachable_run mc tw _ nows (RateLimiter.reach_init mc tw)))
    as (Hmc & Htw & _).
  pose proof (run_attempts_length nows (RateLimiter.init mc tw)) as Hlen.
  simpl in Hlen.
  pose proof (evict_length now tw
                (RateLimiter.calls (run_attempts (RateLimiter.init mc tw) nows))).
  rewrite wrapper_let_through by (rewrite Hmc, Htw; lia).
  rewrite Hmc, Htw. reflexivity.
Qed.

Lemma evict_none now tw cs :
  Forall (fun c => now - c < inject_Z tw)%Q cs -> RateLimiter.evict now tw cs = cs.
Proof.
  destruct 1 as [|c rest Hc _]; simpl; [reflexivity|].
  apply aged_false_iff in Hc. unfold aged in Hc. rewrite Hc. reflexivity.
Qed.

Lemma evict_all now tw cs :
  Forall (fun c => inject_Z tw <= now - c)%Q cs -> RateLimiter.evict now tw cs = [].
Proof.
  induction 1 as [|c rest Hc _ IH]; simpl; [reflexivity|].
  apply aged_iff in Hc. unfold aged in Hc. rewrite Hc. exact IH.
Qed.

(** While nothing is old enough to be popped and there is room, every
    attempt is appended. *)
Lemma run_attempts_burst now nows :
  forall self,
  Forall (fun t => t <= now /\ now - t < inject_Z (RateLimiter.time_window self))%Q nows ->
  Forall (fun c => now - c < inject_Z (RateLimiter.time_window self))%Q
    (RateLimiter.calls self) ->
  (Z.of_nat (List.length (RateLimiter.calls self) + List.length nows)
   <= RateLimiter.max_calls self)%Z ->
  run_attempts self nows
  = RateLimiter.mk (RateLimiter.max_calls self) (RateLimiter.time_window self)
      (RateLimiter.calls self ++ nows).
Proof.
  induction nows as [|n rest IH]; intros self Hn Hc Hlen.
  - rewrite app_nil_r. destruct self; reflexivity.
  - inversion Hn as [|? ? [Hle Hlt] Hrest]; subst.
    change (run_attempts self (n :: rest))
      with (run_attempts (snd (RateLimiter.critical_section self n)) rest).
    assert (He : RateLimiter.evict n (RateLimiter.time_window self)
                   (RateLimiter.calls self) = RateLimiter.calls self).
    { apply evict_none. eapply Forall_impl; [exact Hc|].
      intros c H. simpl in H. lra. }
    assert (Hs : snd (RateLimiter.critical_section self n)
                 = RateLimiter.mk (RateLimiter.max_calls self)
                     (RateLimiter.time_window self)
                     (RateLimiter.calls self ++ [n])).
    { unfold RateLimiter.critical_section. rewrite He.
      destruct (Z.leb_spec (RateLimiter.max_calls self)
                  (Z.of_nat (List.length (RateLimiter.calls self))));
        [simpl in Hlen; lia|reflexivity]. }
    rewrite Hs, IH; simpl.
    + rewrite <- app_assoc. reflexivity.
    + exact Hrest.
    + apply Forall_app. split; [exact Hc|]. constructor; [exact Hlt|constructor].
    + rewrite length_app. simpl in *. lia.
Qed.

(** X20. The call after a full burst is rejected.  On a fresh limiter,
    [max_calls] attempts at readings that all lie within [time_window]
    before [now] are all recorded, and the attempt at [now] raises the
    rate-limit [Exception]: the wrapped function does not run and the
    limiter keeps exactly those [max_calls] timestamps. *)
Theorem call_after_a_full_burst_is_rejected {A B W : Type}
    (func : A -> W -> outcome B * W) mc tw nows now args w :
  Forall (fun t => t <= now /\ now - t < inject_Z tw)%Q nows ->
  Z.of_nat (List.length nows) = mc ->
  run_attempts (RateLimiter.init mc tw) nows = RateLimiter.mk mc tw nows
  /\ RateLimiter.wrapper func (RateLimiter.mk mc tw nows) now args w
     = (Raised (Exception RateLimiter.rate_limit_message),
        RateLimiter.mk mc tw nows, w).
Proof.
  intros Hn Hlen. split.
  - rewrite (run_attempts_burst now nows (RateLimiter.init mc tw));
      simpl; [reflexivity|exact Hn|constructor|lia].
  - unfold RateLimiter.wrapper, RateLimiter.critical_section. simpl.
    rewrite evict_none
      by (eapply Forall_impl; [exact Hn|]; intros t [_ H]; exact H).
    destruct (Z.leb_spec mc (Z.of_nat (List.length nows))); [reflexivity|lia].
Qed.

(** X21. A quiet window resets the limiter.  When every recorded timestamp
    is at least [time_window] old, the eviction loop empties the deque and
    the call is handled as by a limiter that has recorded nothing. *)
Theorem quiet_window_resets_the_limiter {A B W : Type}
    (func : A -> W -> outcome B * W) self now args w :
  Forall (fun c => inject_Z (RateLimiter.time_window self) <= now - c)%Q
    (RateLimiter.calls self) ->
  RateLimiter.wrapper func self now args w
  = RateLimiter.wrapper func
      (RateLimiter.init (RateLimiter.max_calls self) (RateLimiter.time_window self))
      now args w.
Proof.
  intros H. unfold RateLimiter.wrapper, RateLimiter.critical_section. simpl.
  rewrite (evict_all _ _ _ H). reflexivity.
Qed.

(** ** More on the validators *)

Lemma float_le_fin_inv lo x :
  float_le (FFin lo) x = true ->
  x = FInf false \/ exists q, x = FFin q /\ (lo <= q)%Q.
Proof.
  destruct x as [|[|]|q]; simpl; try discriminate.
  - intros _. left. reflexivity.
  - intros H. right. exists q. split; [reflexivity|apply Qle_bool_iff, H].
Qed.

(** X1. [validate_port] accepts nothing but the range: an accepted value is
    an [int] or [float] instance (so a [bool] too) that stands for a finite
    number between 0 and 65535.  NaN and both infinities are rejected, and
    so is every [numpy.int64]. *)
Theorem validate_port_accepts_only_the_range :
  (forall v, validate_port v = true <->
     isinstance_int_float v = true
     /\ exists q, number v = Some (FFin q) /\ (0 <= q)%Q /\ (q <= 65535)%Q)
  /\ validate_port (VFloat FNaN) = false
  /\ (forall s, validate_port (VFloat (FInf s)) = false)
  /\ (forall b, validate_port (VBool b) = true)
  /\ (forall z, validate_port (VNpInt64 z) = false).
Proof.
  split; [|repeat split; try reflexivity; intros []; reflexivity].
  intros v. split.
  - unfold validate_port, int_le_val, val_le_int, PORT_MIN, PORT_MAX.
    intros H. apply andb_true_iff in H. destruct H as [Hi H].
    apply andb_true_iff in H. destruct H as [Hlo Hhi].
    split; [exact Hi|].
    destruct (number v) as [x|]; [|discriminate].
    destruct (float_le_fin_inv _ _ Hlo) as [->|(q & -> & Hq)];
      [discriminate|].
    exists q. split; [reflexivity|]. split; [exact Hq|].
    simpl in Hhi. apply Qle_bool_iff, Hhi.
  - intros (Hi & q & Hn & Hlo & Hhi).
    eapply validate_port_in_range; eassumption.
Qed.

(** X2. [validate_numeric] accepts exactly the [int] and [float] instances
    that stand for a number that is at least 0: a finite one, or positive
    infinity.  There is no upper bound; NaN, negative numbers, strings,
    [None] and [numpy.int64] are rejected.  Whatever passes as a port
    passes as a counter. *)
Theorem validate_numeric_accepts_the_nonnegative :
  (forall v, validate_numeric v = true <->
     isinstance_int_float v = true
     /\ (number v = Some (FInf false)
         \/ exists q, number v = Some (FFin q) /\ (0 <= q)%Q))
  /\ validate_numeric (VFloat FNaN) = false
  /\ validate_numeric (VFloat (FInf false)) = true
  /\ (forall s, validate_numeric (VStr s) = false)
  /\ validate_numeric VNone = false
  /\ (forall z, validate_numeric (VNpInt64 z) = false)
  /\ (forall v, validate_port v = true -> validate_numeric v = true).
Proof.
  split; [|repeat split; try reflexivity].
  - intros v. unfold validate_numeric, int_le_val. split.
    + intros H. apply andb_true_iff in H. destruct H as [Hi Hlo].
      split; [exact Hi|].
      destruct (number v) as [x|]; [|discriminate].
      destruct (float_le_fin_inv _ _ Hlo) as [->|(q & -> & Hq)].
      * left. reflexivity.
      * right. exists q. split; [reflexivity|exact Hq].
    + intros (Hi & [Hn|(q & Hn & Hq)]); rewrite Hi, Hn; simpl;
        [reflexivity|apply Qle_bool_iff, Hq].
  - intros v. unfold validate_port, validate_numeric, PORT_MIN.
    intros H. apply andb_true_iff in H. destruct H as [Hi H].
    apply andb_true_iff in H. destruct H as [Hlo _].
    rewrite Hi, Hlo. reflexivity.
Qed.

(** ** More on text *)

Local Open Scope string_scope.

Lemma sub_tags_in_tag m b :
  Text.has_gt m = false ->
  Text.sub_tags true (m ++ String Text.gt_sign b) = Text.sub_tags false b.
Proof.
  induction m as [|c r IH]; simpl.
  - intros _. reflexivity.
  - intros H. apply orb_false_iff in H. destruct H as [Hc Hr].
    rewrite Hc. apply IH, Hr.
Qed.

Lemma has_gt_app a b : Text.has_gt (a ++ b) = Text.has_gt a || Text.has_gt b.
Proof.
  induction a as [|c r IH]; simpl; [reflexivity|].
  rewrite IH. apply orb_assoc.
Qed.

(** X3. What [re.sub(r'<[^>]*>', '', x)] removes: in a string that reads
    [a], then [<], then [m] without any [>], then [>], then [b], where [a]
    has no [<], the span from that [<] up to and including the first [>]
    after it is dropped and the text before it is kept; the rest [b] is
    treated the same way. *)
Theorem strip_tags_removes_the_span a m b :
  has_lt a = false -> Text.has_gt m = false ->
  Text.strip_tags (a ++ String Text.lt_sign (m ++ String Text.gt_sign b))
  = a ++ Text.strip_tags b.
Proof.
  intros Ha Hm. unfold Text.strip_tags.
  induction a as [|c r IH]; simpl in *.
  - rewrite has_gt_app. simpl. rewrite orb_true_r. simpl.
    apply sub_tags_in_tag, Hm.
  - apply orb_false_iff in Ha. destruct Ha as [Hc Hr].
    rewrite Hc. simpl. rewrite (IH Hr). reflexivity.
Qed.

Lemma sub_tags_length b s :
  (String.length (Text.sub_tags b s) <= String.length s)%nat.
Proof.
  revert b. induction s as [|c r IH]; intros b; simpl; [lia|].
  destruct b.
  - destruct (Ascii.eqb c Text.gt_sign); specialize (IH false) as H0;
      specialize (IH true) as H1; lia.
  - destruct (Ascii.eqb c Text.lt_sign && Text.has_gt r); simpl;
      [specialize (IH true)|specialize (IH false)]; lia.
Qed.

Lemma sub_tags_in_tag_shorter s :
  Text.has_gt s = true ->
  (String.length (Text.sub_tags true s) < String.length s)%nat.
Proof.
  induction s as [|c r IH]; simpl; [discriminate|].
  destruct (Ascii.eqb c Text.gt_sign); simpl.
  - intros _. pose proof (sub_tags_length false r). lia.
  - intros H. specialize (IH H). lia.
Qed.

Lemma strip_tags_shorter s :
  Text.has_tag s = true ->
  (String.length (Text.strip_tags s) + 2 <= String.length s)%nat.
Proof.
  unfold Text.strip_tags. induction s as [|c r IH]; simpl; [discriminate|].
  destruct (Ascii.eqb c Text.lt_sign && Text.has_gt r) eqn:E; simpl.
  - intros _. apply andb_true_iff in E. destruct E as [_ Hgt].
    pose proof (sub_tags_in_tag_shorter r Hgt). lia.
  - intros H. specialize (IH H). lia.
Qed.

(** X4. The tag stripping never adds a character, and it changes a string
    exactly when the pattern [<[^>]*>] matches somewhere in it: a string
    without a match comes back as it is (a [<] that no [>] follows is
    kept), and a string with a match loses at least the two characters
    [<] and [>]. *)
Theorem strip_tags_changes_only_tagged_text s :
  (String.length (Text.strip_tags s) <= String.length s)%nat
  /\ (Text.strip_tags s = s <-> Text.has_tag s = false)
  /\ (Text.has_tag s = true ->
      (String.length (Text.strip_tags s) + 2 <= String.length s)%nat)
  /\ Text.strip_tags "a < b" = "a < b".
Proof.
  split; [apply sub_tags_length|]. split; [|split; [apply strip_tags_shorter|reflexivity]].
  split.
  - intros H. rewrite <- H. apply strip_tags_no_tag.
  - apply strip_tags_tag_free.
Qed.

Lemma lower_app a b : Text.lower (a ++ b) = Text.lower a ++ Text.lower b.
Proof. induction a as [|c r IH]; simpl; [reflexivity|]. rewrite IH. reflexivity. Qed.

Lemma all_space_lower a : all_space (Text.lower a) = all_space a.
Proof.
  induction a as [|c r IH]; simpl; [reflexivity|].
  rewrite lower_char_space, IH. reflexivity.
Qed.

Lemma lstrip_all_space a : all_space a = true -> Text.lstrip a = "".
Proof.
  induction a as [|c r IH]; simpl; [reflexivity|].
  intros H. apply andb_true_iff in H. destruct H as [Hc Hr].
  rewrite Hc. apply IH, Hr.
Qed.

Lemma lstrip_app a b :
  Text.lstrip (a ++ b)
  = if all_space a then Text.lstrip b else Text.lstrip a ++ b.
Proof.
  induction a as [|c r IH]; simpl; [reflexivity|].
  destruct (Text.is_space c); simpl; [exact IH|reflexivity].
Qed.

Lemma rstrip_all_space b : all_space b = true -> Text.rstrip b = "".
Proof.
  induction b as [|c r IH]; simpl; [reflexivity|].
  intros H. apply andb_true_iff in H. destruct H as [Hc Hr].
  rewrite (IH Hr), Hc. reflexivity.
Qed.

Lemma rstrip_app_space a b :
  all_space b = true -> Text.rstrip (a ++ b) = Text.rstrip a.
Proof.
  intros Hb. induction a as [|c r IH]; simpl.
  - apply rstrip_all_space, Hb.
  - rewrite IH. reflexivity.
Qed.

Lemma strip_padding pre s post :
  all_space pre = true -> all_space post = true ->
  Text.strip (pre ++ s ++ post) = Text.strip s.
Proof.
  intros Hpre Hpost. unfold Text.strip.
  rewrite lstrip_app, Hpre, lstrip_app.
  destruct (all_space s) eqn:Hs.
  - rewrite (lstrip_all_space _ Hpost), (lstrip_all_space _ Hs). reflexivity.
  - apply rstrip_app_space, Hpost.
Qed.

(** X5. The column renaming [column.lower().strip()] does not see case or
    surrounding white space: two names that are equal once lower-cased get
    the same label, whatever white space is put around one of them. *)
Theorem normalize_ignores_case_and_padding pre s1 post s2 :
  all_space pre = true -> all_space post = true ->
  Text.lower s1 = Text.lower s2 ->
  Text.normalize (pre ++ s1 ++ post) = Text.normalize s2.
Proof.
  intros Hpre Hpost Heq. unfold Text.normalize.
  rewrite !lower_app, Heq.
  apply strip_padding; rewrite all_space_lower; assumption.
Qed.

Local Close Scope string_scope.

(** ** More on the sanitizer and the upload *)

Lemma lower_normalize s : Text.lower (Text.normalize s) = Text.normalize s.
Proof.
  unfold Text.normalize, Text.strip.
  rewrite lower_rstrip, lower_lstrip, lower_idem. reflexivity.
Qed.

Lemma required_are_lower g : In g REQUIRED_COLUMNS -> Text.lower g = g.
Proof. intros H. repeat (destruct H as [<-|H]; [reflexivity|]). destruct H. Qed.

Lemma iterrows_length df : List.length (iterrows df) = List.length (index df).
Proof. unfold iterrows. apply length_imap. Qed.

Lemma absent_from_nil labels :
  (forall g, In g REQUIRED_COLUMNS -> In g labels) -> absent_from labels = [].
Proof.
  intros H. apply filter_none. intros g Hg. apply negb_false_iff.
  apply existsb_exists. exists g. split; [apply H, Hg|apply String.eqb_refl].
Qed.

Lemma absent_from_In labels g :
  In g (absent_from labels) <-> In g REQUIRED_COLUMNS /\ ~ In g labels.
Proof.
  unfold absent_from. rewrite filter_In, negb_true_iff. split.
  - intros [Hg He]. split; [exact Hg|]. intros Hin.
    assert (existsb (String.eqb g) labels = true); [|congruence].
    apply existsb_exists. exists g. split; [exact Hin|apply String.eqb_refl].
  - intros [Hg Hn]. split; [exact Hg|].
    destruct (existsb (String.eqb g) labels) eqn:E; [|reflexivity].
    apply existsb_exists in E as (x & Hx & Hgx).
    apply String.eqb_eq in Hgx. subst x. contradiction.
Qed.

(** A decidable form of the test that no required column is missing. *)
Lemma required_in_labels (labels : list string) :
  forallb (fun g => existsb (String.eqb g) labels) REQUIRED_COLUMNS = true ->
  forall g, In g REQUIRED_COLUMNS -> In g labels.
Proof.
  intros H g Hg. rewrite forallb_forall in H. specialize (H g Hg).
  apply existsb_exists in H as (x & Hx & Hgx).
  apply String.eqb_eq in Hgx. subst x. exact Hx.
Qed.

Section Uploaded.

Variable repr_float : Q -> string.
Variable ip_address_parses : string -> bool.
Variable strptime_parses : string -> string -> bool.
Variable SERVING_API : option string.
Variable key_data : option string.
Variable endpoint : request -> http_result.
Variable prepare_raises : string -> list (string * string) -> option exn.
Variable read_json_raises : pyobj -> option exn.

Local Abbreviation py_str' := (py_str repr_float).
Local Abbreviation sanitized' := (sanitized repr_float).
Local Abbreviation field_errors' :=
  (field_errors repr_float ip_address_parses strptime_parses).
Local Abbreviation row_errors' :=
  (row_errors repr_float ip_address_parses strptime_parses).
Local Abbreviation sanitize_dataframe' :=
  (sanitize_dataframe repr_float ip_address_parses strptime_parses).
Local Abbreviation request_for' := (request_for SERVING_API key_data).
Local Abbreviation preparation_error' :=
  (preparation_error SERVING_API key_data prepare_raises).
Local Abbreviation call_serve_api_func' :=
  (call_serve_api_func SERVING_API key_data endpoint prepare_raises).
Local Abbreviation call_serve_api' :=
  (call_serve_api SERVING_API key_data endpoint prepare_raises).
Local Abbreviation process_upload' :=
  (process_upload repr_float ip_address_parses strptime_parses
     SERVING_API key_data endpoint prepare_raises read_json_raises).

(** The success notice of the upload branch. *)
Local Abbreviation notice :=
  (StSuccess "File contains all required columns and meets the row limit of 100.").
Local Abbreviation failed_notice :=
  (StError "Failed to get classification results.").

(** X9. [sanitize_dataframe] keeps the shape of the table and never
    touches a numeric column: the returned frame has the row labels of the
    input, its columns in the same order under their normalised names, and
    every column whose dtype is not [object] with exactly the cells it
    had. *)
Theorem sanitize_keeps_shape_and_numbers
    (h h' : gmap loc DataFrame) l df l' errors :
  h !! l = Some df ->
  sanitize_dataframe' l h = Some (l', errors, h') ->
  exists df', h' !! l' = Some df'
    /\ index df' = index df
    /\ columns df' = map Text.normalize (columns df)
    /\ forall (i : nat) n c, series df !! i = Some (n, c) ->
         is_object c = false -> series df' !! i = Some (Text.normalize n, c).
Proof.
  intros Hl Hs.
  destruct (sanitize_dataframe_returned _ _ _ h h' l df l' errors Hl Hs)
    as (_ & -> & _ & ->).
  exists (sanitized' df). split; [apply lookup_insert_eq|].
  split; [reflexivity|]. split; [apply sanitized_columns|].
  intros i n c Hi Hc. unfold sanitized, strip_objects, normalize_columns. simpl.
  rewrite !list_lookup_fmap, Hi. simpl. rewrite Hc. reflexivity.
Qed.

(** X10. A table without rows gives no error, whatever its columns are:
    the validation loop has nothing to run on, so a header that lacks
    required columns is not reported by [sanitize_dataframe]; the returned
    table has no rows either. *)
Theorem frame_without_rows_has_no_errors
    (h h' : gmap loc DataFrame) l df l' errors :
  h !! l = Some df -> index df = [] ->
  sanitize_dataframe' l h = Some (l', errors, h') ->
  errors = [] /\ exists df', h' !! l' = Some df' /\ index df' = [].
Proof.
  intros Hl Hi Hs.
  destruct (sanitize_dataframe_returned _ _ _ h h' l df l' errors Hl Hs)
    as (_ & -> & -> & ->).
  split.
  - unfold iterrows, normalize_columns. simpl. rewrite Hi. reflexivity.
  - exists (sanitized' df). split; [apply lookup_insert_eq|exact Hi].
Qed.

Lemma field_errors_length idx row f :
  (List.length (field_errors' idx row f) <= 1)%nat.
Proof.
  unfold field_errors. destruct (Series_getitem row f) as [|v]; simpl; [lia|].
  destruct (valid_for _ _ _ f v); simpl; lia.
Qed.

Lemma split_missing_length idx row fields :
  (List.length (concat (map (field_errors' idx row) (fst (split_missing row fields)))
                ++ match snd (split_missing row fields) with
                   | Some f => [missing_message f]
                   | None => []
                   end)
   <= List.length fields)%nat.
Proof.
  induction fields as [|f rest IH]; simpl; [lia|].
  destruct (Series_getitem row f) as [|v] eqn:E; simpl; [lia|].
  destruct (split_missing row rest) as [before m]. simpl in *.
  pose proof (field_errors_length idx row f).
  rewrite length_app in *. rewrite length_app. lia.
Qed.

Lemma row_errors_length r : (List.length (row_errors' r) <= 10)%nat.
Proof.
  unfold row_errors.
  pose proof (split_missing_length (fst r) (snd r) FIELD_ORDER) as H.
  destruct (split_missing (snd r) FIELD_ORDER) as [before m]. exact H.
Qed.

Lemma concat_length_le {A B : Type} (f : A -> list B) k items :
  (forall x, List.length (f x) <= k)%nat ->
  (List.length (concat (map f items)) <= k * List.length items)%nat.
Proof.
  intros H. induction items as [|x rest IH]; simpl; [lia|].
  rewrite length_app. specialize (H x). lia.
Qed.

(** X11. [sanitize_dataframe] reports at most ten errors per row: one for
    each of the ten fields the loop body tests, a missing field taking the
    place of all the tests that would follow it. *)
Theorem at_most_ten_errors_per_row
    (h h' : gmap loc DataFrame) l df l' errors :
  h !! l = Some df ->
  sanitize_dataframe' l h = Some (l', errors, h') ->
  (List.length errors <= 10 * List.length (index df))%nat.
Proof.
  intros Hl Hs.
  destruct (sanitize_dataframe_returned _ _ _ h h' l df l' errors Hl Hs)
    as (_ & _ & -> & _).
  pose proof (concat_length_le row_errors' 10
                (iterrows (normalize_columns df)) row_errors_length) as H.
  rewrite iterrows_length in H. exact H.
Qed.

Lemma sanitize_dataframe_dangling (h : gmap loc DataFrame) l :
  h !! l = None -> sanitize_dataframe' l h = None.
Proof.
  intros Hl. unfold sanitize_dataframe.
  unfold mbind at 1, M_bind at 1, DataFrame_copy. rewrite Hl. reflexivity.
Qed.

Lemma missing_columns_sanitized df :
  missing_columns (sanitized' df)
  = absent_from (map Text.normalize (columns df)).
Proof.
  unfold missing_columns, absent_from. rewrite sanitized_columns.
  apply filter_ext_in. intros g Hg.
  rewrite (required_are_lower g Hg), map_map.
  rewrite (map_ext _ _ lower_normalize). reflexivity.
Qed.

(** The upload branch once the sanitizer has returned. *)
Lemma process_upload_sanitized (h : gmap loc DataFrame) l df now rl w :
  h !! l = Some df ->
  distinct (map Text.normalize (columns df)) = true ->
  process_upload' l now (mkState h rl w)
  = match absent_from (map Text.normalize (columns df)) with
    | (_ :: _) as missing =>
        Some (MissingColumns,
              mkState (<[fresh (dom h) := sanitized' df]> h) rl
                (w ++ [StError ("Missing columns: " ++ join ", " missing)%string]))
    | [] =>
        if (Z.of_nat (List.length (index df)) <=? 100)%Z then
          match call_serve_api' rl now (OList (to_dict_records (sanitized' df)))
                  (w ++ [notice]) with
          | (Raised e, rl', w') =>
              Some (Uncaught e, mkState (<[fresh (dom h) := sanitized' df]> h) rl' w')
          | (Returned r, rl', w') =>
              match r with
              | Some results =>
                  if truthy r
                  then match read_json_raises results with
                       | None =>
                           Some (Classified results,
                                 mkState (<[fresh (dom h) := sanitized' df]> h)
                                   rl' w')
                       | Some e =>
                           Some (Uncaught e,
                                 mkState (<[fresh (dom h) := sanitized' df]> h)
                                   rl' w')
                       end
                  else Some (Failed,
                             mkState (<[fresh (dom h) := sanitized' df]> h) rl'
                               (w' ++ [failed_notice]))
              | None =>
                  Some (Failed,
                        mkState (<[fresh (dom h) := sanitized' df]> h) rl'
                          (w' ++ [failed_notice]))
              end
          end
        else
          Some (RowLimitExceeded,
                mkState (<[fresh (dom h) := sanitized' df]> h) rl
                  (w ++ [StError ("File exceeds the row limit of 100. Your file contains "
                                  ++ pretty.pretty (List.length (index df))
                                  ++ " rows.")%string]))
    end.
Proof.
  intros Hl Hd. unfold process_upload. simpl.
  rewrite (sanitize_dataframe_spec _ _ _ h l df Hl Hd), lookup_insert_eq.
  rewrite missing_columns_sanitized, sanitized_index. reflexivity.
Qed.

(** X12. The validation is advisory only.  The table [sanitize_dataframe]
    returns, and everything the upload branch does after it (the page
    chosen, the messages shown, the request posted, the limiter), are the
    same whatever [validate_ip] and [validate_timestamp] answer: the error
    list is computed and then never read. *)
Theorem validation_is_never_consulted
    (ip_address_parses2 : string -> bool)
    (strptime_parses2 : string -> string -> bool) l now st :
  (fun r => (fst (fst r), snd r)) <$> sanitize_dataframe' l (store st)
  = (fun r => (fst (fst r), snd r))
      <$> sanitize_dataframe repr_float ip_address_parses2 strptime_parses2
            l (store st)
  /\ process_upload' l now st
     = process_upload repr_float ip_address_parses2 strptime_parses2
         SERVING_API key_data endpoint prepare_raises read_json_raises
         l now st.
Proof.
  unfold process_upload.
  destruct (store st !! l) as [df|] eqn:Hl.
  - destruct (distinct (map Text.normalize (columns df))) eqn:Hd.
    + rewrite !(sanitize_dataframe_spec _ _ _ _ l df Hl Hd).
      split; reflexivity.
    + rewrite !(sanitize_dataframe_stuck _ _ _ _ l df Hl Hd).
      split; reflexivity.
  - rewrite (sanitize_dataframe_dangling _ _ Hl).
    assert (H2 : sanitize_dataframe repr_float ip_address_parses2
                   strptime_parses2 l (store st) = None).
    { unfold sanitize_dataframe.
      unfold mbind at 1, M_bind at 1, DataFrame_copy. rewrite Hl. reflexivity. }
    rewrite H2. split; reflexivity.
Qed.

(** A call whose request can be prepared, by the answer of the endpoint. *)
Lemma call_serve_api_func_prepared input_data w :
  preparation_error' = None ->
  json_dumps_error (OList [input_data]) = None ->
  call_serve_api_func' input_data w
  = match endpoint (request_for' input_data) with
    | TransportFailure =>
        (Raised ConnectionError, w ++ [Post (request_for' input_data)])
    | Response status text body =>
        if (400 <=? status)%Z && (status <? 600)%Z
        then (Returned None,
              (w ++ [Post (request_for' input_data)])
                ++ [StError ("API Error: " ++ pretty.pretty status ++ " - "
                             ++ text)%string])
        else match body with
             | Some results =>
                 (Returned (Some results), w ++ [Post (request_for' input_data)])
             | None =>
                 (Raised JSONDecodeError, w ++ [Post (request_for' input_data)])
             end
    end.
Proof.
  intros Hp Hj. unfold call_serve_api_func.
  fold (request_headers key_data).
  fold (preparation_error SERVING_API key_data prepare_raises).
  fold (request_for' input_data). rewrite Hp, Hj. reflexivity.
Qed.

(** X13. Invalid rows do not stop an upload.  A table with all required
    columns, at most 100 rows and no float cell that is NaN or infinite is
    posted to the gateway whatever [validate_ip], [validate_timestamp] and
    the range tests say about its rows, when the limiter has room and
    [requests] accepts the URL and the headers: one request, whose body
    wraps the records of all the rows of the sanitized table, and one
    timestamp recorded. *)
Theorem invalid_rows_do_not_stop_the_upload
    (h : gmap loc DataFrame) l df now rl w :
  h !! l = Some df ->
  distinct (map Text.normalize (columns df)) = true ->
  (forall g, In g REQUIRED_COLUMNS -> In g (map Text.normalize (columns df))) ->
  (List.length (index df) <= 100)%nat ->
  (Z.of_nat (List.length (RateLimiter.evict now (RateLimiter.time_window rl)
                            (RateLimiter.calls rl)))
   < RateLimiter.max_calls rl)%Z ->
  preparation_error' = None ->
  finite_floats df = true ->
  exists pg rl' w',
    process_upload' l now (mkState h rl w)
    = Some (pg, mkState (<[fresh (dom h) := sanitized' df]> h) rl' w')
    /\ RateLimiter.calls rl'
       = (RateLimiter.evict now (RateLimiter.time_window rl)
            (RateLimiter.calls rl) ++ [now])%list
    /\ posts w'
       = (posts w ++ [request_for' (OList (to_dict_records (sanitized' df)))])%list
    /\ List.length (to_dict_records (sanitized' df)) = List.length (index df).
Proof.
  intros Hl Hd Hreq Hlen Hroom Hprep Hfin.
  rewrite (process_upload_sanitized h l df now rl w Hl Hd).
  rewrite (absent_from_nil _ Hreq).
  destruct (Z.leb_spec (Z.of_nat (List.length (index df))) 100); [|lia].
  unfold call_serve_api. rewrite (wrapper_let_through _ _ _ _ _ Hroom).
  set (payload := OList (to_dict_records (sanitized' df))).
  pose proof (call_serve_api_func_posts SERVING_API key_data endpoint
                prepare_raises payload (w ++ [notice]) Hprep
                (sanitized_payload_dumps repr_float df Hfin)) as Hp.
  rewrite posts_app in Hp. simpl in Hp. rewrite app_nil_r in Hp.
  destruct (call_serve_api_func' payload (w ++ [notice])) as [[r|e] w2];
    simpl in *.
  - destruct r as [results|];
      [destruct (truthy (Some results));
         [destruct (read_json_raises results)|]|];
      eexists _, _, _; (split; [reflexivity|]); (split; [reflexivity|]);
      (split; [rewrite ?posts_app, Hp; simpl; rewrite ?app_nil_r; reflexivity
              |rewrite to_dict_records_length; reflexivity]).
  - eexists _, _, _; (split; [reflexivity|]); (split; [reflexivity|]);
      (split; [exact Hp|rewrite to_dict_records_length; reflexivity]).
Qed.

(** X14. A table that lacks a required column (after the renaming) never
    reaches the gateway: the page reports the missing columns, in the order
    of [REQUIRED_COLUMNS], nothing is posted and the limiter is left as it
    was.  The row count plays no part. *)
Theorem missing_column_stops_before_the_gateway
    (h : gmap loc DataFrame) l df now rl w g :
  h !! l = Some df ->
  distinct (map Text.normalize (columns df)) = true ->
  In g REQUIRED_COLUMNS -> ~ In g (map Text.normalize (columns df)) ->
  process_upload' l now (mkState h rl w)
  = Some (MissingColumns,
          mkState (<[fresh (dom h) := sanitized' df]> h) rl
            (w ++ [StError ("Missing columns: "
                            ++ join ", " (absent_from
                                 (map Text.normalize (columns df))))%string]))
  /\ In g (absent_from (map Text.normalize (columns df)))
  /\ posts (w ++ [StError ("Missing columns: "
                           ++ join ", " (absent_from
                                (map Text.normalize (columns df))))%string])
     = posts w.
Proof.
  intros Hl Hd Hg Hn.
  assert (Hin : In g (absent_from (map Text.normalize (columns df))))
    by (apply absent_from_In; split; assumption).
  rewrite (process_upload_sanitized h l df now rl w Hl Hd).
  split; [|split; [exact Hin|rewrite posts_app; simpl; apply app_nil_r]].
  destruct (absent_from (map Text.normalize (columns df))); [destruct Hin|].
  reflexivity.
Qed.

(** X15. The row limit.  A table with all required columns and more than
    100 rows never reaches the gateway: the page reports the row count,
    nothing is posted and the limiter is left as it was. *)
Theorem oversized_upload_stops_before_the_gateway
    (h : gmap loc DataFrame) l df now rl w :
  h !! l = Some df ->
  distinct (map Text.normalize (columns df)) = true ->
  (forall g, In g REQUIRED_COLUMNS -> In g (map Text.normalize (columns df))) ->
  (100 < List.length (index df))%nat ->
  process_upload' l now (mkState h rl w)
  = Some (RowLimitExceeded,
          mkState (<[fresh (dom h) := sanitized' df]> h) rl
            (w ++ [StError ("File exceeds the row limit of 100. Your file contains "
                            ++ pretty.pretty (List.length (index df))
                            ++ " rows.")%string])).
Proof.
  intros Hl Hd Hreq Hlen.
  rewrite (process_upload_sanitized h l df now rl w Hl Hd).
  rewrite (absent_from_nil _ Hreq).
  destruct (Z.leb_spec (Z.of_nat (List.length (index df))) 100); [lia|].
  reflexivity.
Qed.

(** X16. When the limiter is full the upload branch does not catch its
    exception: the success notice has been shown, nothing is posted, the
    limiter keeps the timestamps that are still in the window and records
    nothing, and the [Exception] leaves the branch. *)
Theorem rate_limited_upload_raises
    (h : gmap loc DataFrame) l df now rl w :
  h !! l = Some df ->
  distinct (map Text.normalize (columns df)) = true ->
  (forall g, In g REQUIRED_COLUMNS -> In g (map Text.normalize (columns df))) ->
  (List.length (index df) <= 100)%nat ->
  (RateLimiter.max_calls rl
   <= Z.of_nat (List.length (RateLimiter.evict now (RateLimiter.time_window rl)
                               (RateLimiter.calls rl))))%Z ->
  process_upload' l now (mkState h rl w)
  = Some (Uncaught (Exception "Rate limit exceeded. Please try again later."),
          mkState (<[fresh (dom h) := sanitized' df]> h)
            (RateLimiter.mk (RateLimiter.max_calls rl) (RateLimiter.time_window rl)
               (RateLimiter.evict now (RateLimiter.time_window rl)
                  (RateLimiter.calls rl)))
            (w ++ [notice])).
Proof.
  intros Hl Hd Hreq Hlen Hfull.
  rewrite (process_upload_sanitized h l df now rl w Hl Hd).
  rewrite (absent_from_nil _ Hreq).
  destruct (Z.leb_spec (Z.of_nat (List.length (index df))) 100); [|lia].
  unfold call_serve_api, RateLimiter.wrapper, RateLimiter.critical_section.
  destruct (Z.leb_spec (RateLimiter.max_calls rl)
              (Z.of_nat (List.length (RateLimiter.evict now
                 (RateLimiter.time_window rl) (RateLimiter.calls rl)))));
    [reflexivity|lia].
Qed.

(** X17. A 4xx or 5xx answer of the endpoint to a request that could be
    prepared ends on the failure page with two messages, the API error with
    status and text and then the general failure notice; the request has
    been posted and the call counts against the limit. *)
Theorem http_error_gives_the_failure_page
    (h : gmap loc DataFrame) l df now rl w status text body :
  h !! l = Some df ->
  distinct (map Text.normalize (columns df)) = true ->
  (forall g, In g REQUIRED_COLUMNS -> In g (map Text.normalize (columns df))) ->
  (List.length (index df) <= 100)%nat ->
  (Z.of_nat (List.length (RateLimiter.evict now (RateLimiter.time_window rl)
                            (RateLimiter.calls rl)))
   < RateLimiter.max_calls rl)%Z ->
  preparation_error' = None ->
  finite_floats df = true ->
  endpoint (request_for' (OList (to_dict_records (sanitized' df))))
  = Response status text body ->
  (400 <= status < 600)%Z ->
  process_upload' l now (mkState h rl w)
  = Some (Failed,
          mkState (<[fresh (dom h) := sanitized' df]> h)
            (RateLimiter.mk (RateLimiter.max_calls rl) (RateLimiter.time_window rl)
               (RateLimiter.evict now (RateLimiter.time_window rl)
                  (RateLimiter.calls rl) ++ [now]))
            (w ++ [notice;
                   Post (request_for' (OList (to_dict_records (sanitized' df))));
                   StError ("API Error: " ++ pretty.pretty status ++ " - "
                            ++ text)%string;
                   failed_notice])).
Proof.
  intros Hl Hd Hreq Hlen Hroom Hprep Hfin Hend Hst.
  rewrite (process_upload_sanitized h l df now rl w Hl Hd).
  rewrite (absent_from_nil _ Hreq).
  destruct (Z.leb_spec (Z.of_nat (List.length (index df))) 100); [|lia].
  unfold call_serve_api. rewrite (wrapper_let_through _ _ _ _ _ Hroom).
  rewrite (call_serve_api_func_prepared _ _ Hprep
             (sanitized_payload_dumps repr_float df Hfin)), Hend.
  destruct (Z.leb_spec 400 status); [|lia].
  destruct (Z.ltb_spec status 600); [|lia].
  simpl. rewrite <- !app_assoc. reflexivity.
Qed.

(** X18. An answer that is not a 4xx or 5xx and carries JSON is handled by
    its truthiness.  A truthy value is read back with [pd.read_json]: if
    that returns, the value is shown as the result, and if it raises, the
    exception leaves the branch.  An empty array, an empty object or
    [null] ends on the failure page as if the call had failed, without any
    API error message.  The request has been posted and the call counted in
    every case. *)
Theorem answer_is_shown_only_when_truthy
    (h : gmap loc DataFrame) l df now rl w status text results :
  h !! l = Some df ->
  distinct (map Text.normalize (columns df)) = true ->
  (forall g, In g REQUIRED_COLUMNS -> In g (map Text.normalize (columns df))) ->
  (List.length (index df) <= 100)%nat ->
  (Z.of_nat (List.length (RateLimiter.evict now (RateLimiter.time_window rl)
                            (RateLimiter.calls rl)))
   < RateLimiter.max_calls rl)%Z ->
  preparation_error' = None ->
  finite_floats df = true ->
  endpoint (request_for' (OList (to_dict_records (sanitized' df))))
  = Response status text (Some results) ->
  (status < 400 \/ 600 <= status)%Z ->
  process_upload' l now (mkState h rl w)
  = Some (if truthy (Some results)
          then match read_json_raises results with
               | None => Classified results
               | Some e => Uncaught e
               end
          else Failed,
          mkState (<[fresh (dom h) := sanitized' df]> h)
            (RateLimiter.mk (RateLimiter.max_calls rl) (RateLimiter.time_window rl)
               (RateLimiter.evict now (RateLimiter.time_window rl)
                  (RateLimiter.calls rl) ++ [now]))
            (w ++ [notice;
                   Post (request_for' (OList (to_dict_records (sanitized' df))))]
               ++ if truthy (Some results) then [] else [failed_notice]))
  /\ truthy (Some (OList [])) = false
  /\ truthy (Some (ODict [])) = false
  /\ truthy (Some (OVal VNone)) = false.
Proof.
  intros Hl Hd Hreq Hlen Hroom Hprep Hfin Hend Hst.
  split; [|repeat split; reflexivity].
  rewrite (process_upload_sanitized h l df now rl w Hl Hd).
  rewrite (absent_from_nil _ Hreq).
  destruct (Z.leb_spec (Z.of_nat (List.length (index df))) 100); [|lia].
  unfold call_serve_api. rewrite (wrapper_let_through _ _ _ _ _ Hroom).
  rewrite (call_serve_api_func_prepared _ _ Hprep
             (sanitized_payload_dumps repr_float df Hfin)), Hend.
  assert (Hs : ((400 <=? status)%Z && (status <? 600)%Z) = false).
  { apply andb_false_iff.
    destruct Hst; [left; apply Z.leb_gt|right; apply Z.ltb_ge]; lia. }
  rewrite Hs. cbn [fst snd].
  destruct (truthy (Some results)); [destruct (read_json_raises results)|];
    cbn [app]; rewrite <- ?app_assoc, ?app_nil_r; reflexivity.
Qed.

(** X19. A transport failure is caught neither by [call_serve_api], which
    handles [HTTPError] only, nor by the upload branch: the exception leaves
    the branch after the prepared request has been posted and the call has
    been counted against the limit. *)
Theorem transport_failure_is_not_caught
    (h : gmap loc DataFrame) l df now rl w :
  h !! l = Some df ->
  distinct (map Text.normalize (columns df)) = true ->
  (forall g, In g REQUIRED_COLUMNS -> In g (map Text.normalize (columns df))) ->
  (List.length (index df) <= 100)%nat ->
  (Z.of_nat (List.length (RateLimiter.evict now (RateLimiter.time_window rl)
                            (RateLimiter.calls rl)))
   < RateLimiter.max_calls rl)%Z ->
  preparation_error' = None ->
  finite_floats df = true ->
  endpoint (request_for' (OList (to_dict_records (sanitized' df))))
  = TransportFailure ->
  process_upload' l now (mkState h rl w)
  = Some (Uncaught ConnectionError,
          mkState (<[fresh (dom h) := sanitized' df]> h)
            (RateLimiter.mk (RateLimiter.max_calls rl) (RateLimiter.time_window rl)
               (RateLimiter.evict now (RateLimiter.time_window rl)
                  (RateLimiter.calls rl) ++ [now]))
            (w ++ [notice;
                   Post (request_for' (OList (to_dict_records (sanitized' df))))])).
Proof.
  intros Hl Hd Hreq Hlen Hroom Hprep Hfin Hend.
  rewrite (process_upload_sanitized h l df now rl w Hl Hd).
  rewrite (absent_from_nil _ Hreq).
  destruct (Z.leb_spec (Z.of_nat (List.length (index df))) 100); [|lia].
  unfold call_serve_api. rewrite (wrapper_let_through _ _ _ _ _ Hroom).
  rewrite (call_serve_api_func_prepared _ _ Hprep
             (sanitized_payload_dumps repr_float df Hfin)), Hend.
  simpl. rewrite <- !app_assoc. reflexivity.
Qed.

(** The first error the encoder meets, when all it can meet is [e]. *)
Lemma json_dumps_list_error items e :
  Forall (fun o => json_dumps_error o = None \/ json_dumps_error o = Some e)
    items ->
  Exists (fun o => json_dumps_error o = Some e) items ->
  json_dumps_error (OList items) = Some e.
Proof.
  induction 1 as [|o rest Ho _ IH]; intros Hex; [inversion Hex|].
  simpl. destruct Ho as [Ho|Ho]; rewrite Ho; [|reflexivity].
  apply IH. inversion Hex as [? ? Hhd|? ? Htl]; subst; [congruence|exact Htl].
Qed.

Lemma json_dumps_dict_mild (items : list (string * pyobj)) e :
  Forall (fun kv => json_dumps_error (snd kv) = None
                    \/ json_dumps_error (snd kv) = Some e) items ->
  json_dumps_error (ODict items) = None \/ json_dumps_error (ODict items) = Some e.
Proof.
  induction 1 as [|[k o] rest Ho _ IH]; simpl; [left; reflexivity|].
  simpl in Ho. destruct Ho as [Ho|Ho]; rewrite Ho; [exact IH|right; reflexivity].
Qed.

Lemma json_dumps_dict_error (items : list (string * pyobj)) e :
  Forall (fun kv => json_dumps_error (snd kv) = None
                    \/ json_dumps_error (snd kv) = Some e) items ->
  Exists (fun kv => json_dumps_error (snd kv) = Some e) items ->
  json_dumps_error (ODict items) = Some e.
Proof.
  induction 1 as [|[k o] rest Ho _ IH]; intros Hex; [inversion Hex|].
  simpl. simpl in Ho. destruct Ho as [Ho|Ho]; rewrite Ho; [|reflexivity].
  apply IH. inversion Hex as [? ? Hhd|? ? Htl]; subst;
    [simpl in Hhd; congruence|exact Htl].
Qed.

(** A cell of a sanitized column is refused by the encoder only if it is a
    NaN or an infinity. *)
Lemma sanitized_cell_mild (c : Column) i :
  val_dumps_error
    (nth i (objects (if is_object c then ColObject (astype_str_strip repr_float c)
                     else c)) VNone) = None
  \/ val_dumps_error
       (nth i (objects (if is_object c then ColObject (astype_str_strip repr_float c)
                        else c)) VNone) = Some InvalidJSONError.
Proof.
  destruct c as [v|v|v|v]; simpl.
  - destruct (nth_in_or_default i (map VBool v) VNone) as [Hin| ->];
      [|left; reflexivity].
    apply in_map_iff in Hin as (b & <- & _). left. reflexivity.
  - destruct (nth_in_or_default i (map VInt v) VNone) as [Hin| ->];
      [|left; reflexivity].
    apply in_map_iff in Hin as (z & <- & _). left. reflexivity.
  - destruct (nth_in_or_default i (map VFloat v) VNone) as [Hin| ->];
      [|left; reflexivity].
    apply in_map_iff in Hin as (f & <- & _).
    destruct f; [right|right|left]; reflexivity.
  - unfold astype_str_strip. simpl.
    destruct (nth_in_or_default i
                (map (fun x => VStr (Text.strip_tags (py_str' x))) v) VNone)
      as [Hin| ->]; [|left; reflexivity].
    apply in_map_iff in Hin as (y & <- & _). left. reflexivity.
Qed.

(** What [requests] makes of a sanitized table that holds a NaN or an
    infinite float. *)
Lemma sanitized_payload_error df :
  well_formed df -> finite_floats df = false ->
  json_dumps_error (OList [OList (to_dict_records (sanitized' df))])
  = Some InvalidJSONError.
Proof.
  intros Hwf Hfin.
  assert (Hrec : json_dumps_error (OList (to_dict_records (sanitized' df)))
                 = Some InvalidJSONError); [|simpl in *; rewrite Hrec; reflexivity].
  assert (Hcells : forall i,
            Forall (fun kv : string * pyobj =>
                      json_dumps_error (snd kv) = None
                      \/ json_dumps_error (snd kv) = Some InvalidJSONError)
              (map (fun nc : string * Column =>
                      (fst nc, OVal (nth i (objects (snd nc)) VNone)))
                   (series (sanitized' df)))).
  { intros i. apply List.Forall_forall. intros kv Hkv.
    apply in_map_iff in Hkv as (nc & <- & Hnc).
    unfold sanitized, strip_objects, normalize_columns in Hnc. simpl in Hnc.
    rewrite map_map in Hnc. apply in_map_iff in Hnc as (nc0 & <- & _).
    simpl. apply sanitized_cell_mild. }
  apply json_dumps_list_error.
  - apply List.Forall_forall. intros o Ho. unfold to_dict_records in Ho.
    apply list_elem_of_In, elem_of_lookup_imap in Ho as (i & idx & -> & _).
    apply json_dumps_dict_mild, Hcells.
  - unfold finite_floats in Hfin.
    assert (Hex : exists nc, In nc (series df)
                  /\ match snd nc with
                     | ColFloat64 v => forallb is_finite v
                     | _ => true
                     end = false).
    { destruct (forallb _ (series df)) eqn:E in Hfin; [discriminate|].
      clear Hfin. induction (series df) as [|nc rest IH]; [discriminate|].
      simpl in E. apply andb_false_iff in E. destruct E as [E|E].
      - exists nc. split; [left; reflexivity|exact E].
      - destruct (IH E) as (nc' & Hin & H'). exists nc'.
        split; [right; exact Hin|exact H']. }
    destruct Hex as ([name c] & Hin & Hc). simpl in Hc.
    destruct c as [v|v|v|v]; try discriminate.
    assert (Hf : exists i f, v !! i = Some f /\ is_finite f = false).
    { clear Hin. induction v as [|f rest IH]; [discriminate|].
      simpl in Hc. apply andb_false_iff in Hc. destruct Hc as [Hc|Hc].
      - exists 0%nat, f. split; [reflexivity|exact Hc].
      - destruct (IH Hc) as (i & f' & Hi & Hf'). exists (S i), f'.
        split; [exact Hi|exact Hf']. }
    destruct Hf as (i & f & Hi & Hf).
    unfold well_formed in Hwf. rewrite List.Forall_forall in Hwf.
    pose proof (Hwf _ Hin) as Hlen. simpl in Hlen.
    assert (Hidx : exists idx, index df !! i = Some idx).
    { apply lookup_lt_is_Some. rewrite <- Hlen.
      apply lookup_lt_is_Some. exists f. exact Hi. }
    destruct Hidx as (idx & Hidx).
    apply List.Exists_exists.
    exists (ODict (map (fun nc : string * Column =>
                          (fst nc, OVal (nth i (objects (snd nc)) VNone)))
                       (series (sanitized' df)))).
    split.
    + unfold to_dict_records. apply list_elem_of_In.
      apply (elem_of_lookup_imap_2
               (fun i _ => ODict (map (fun nc : string * Column =>
                          (fst nc, OVal (nth i (objects (snd nc)) VNone)))
                       (series (sanitized' df))))
               (index (sanitized' df)) idx i).
      exact Hidx.
    + apply json_dumps_dict_error; [apply Hcells|].
      apply List.Exists_exists.
      exists (Text.normalize name, OVal (nth i (map VFloat v) VNone)).
      split.
      * apply in_map_iff. exists (Text.normalize name, ColFloat64 v).
        split; [reflexivity|].
        unfold sanitized, strip_objects, normalize_columns. simpl.
        rewrite map_map. apply in_map_iff.
        exists (name, ColFloat64 v). split; [reflexivity|exact Hin].
      * simpl. rewrite (nth_lookup_Some (map VFloat v) i VNone (VFloat f))
          by (rewrite list_lookup_fmap, Hi; reflexivity).
        destruct f; [reflexivity|reflexivity|discriminate].
Qed.

(** X22. A NaN or an infinite float stops the upload inside [requests].
    In a table with all required columns and at most 100 rows where some
    cell of a [float64] column is NaN or infinite (an empty cell of a
    numeric column of the file is read as NaN), the body cannot be
    serialised: [InvalidJSONError] leaves [call_serve_api] and the upload
    branch uncaught, after the success notice, with nothing posted, and the
    call has already been counted against the limit. *)
Theorem nan_cell_raises_before_posting
    (h : gmap loc DataFrame) l df now rl w :
  h !! l = Some df ->
  distinct (map Text.normalize (columns df)) = true ->
  (forall g, In g REQUIRED_COLUMNS -> In g (map Text.normalize (columns df))) ->
  (List.length (index df) <= 100)%nat ->
  (Z.of_nat (List.length (RateLimiter.evict now (RateLimiter.time_window rl)
                            (RateLimiter.calls rl)))
   < RateLimiter.max_calls rl)%Z ->
  preparation_error' = None ->
  well_formed df -> finite_floats df = false ->
  process_upload' l now (mkState h rl w)
  = Some (Uncaught InvalidJSONError,
          mkState (<[fresh (dom h) := sanitized' df]> h)
            (RateLimiter.mk (RateLimiter.max_calls rl) (RateLimiter.time_window rl)
               (RateLimiter.evict now (RateLimiter.time_window rl)
                  (RateLimiter.calls rl) ++ [now]))
            (w ++ [notice]))
  /\ posts (w ++ [notice]) = posts w.
Proof.
  intros Hl Hd Hreq Hlen Hroom Hprep Hwf Hfin.
  split; [|rewrite posts_app; simpl; apply app_nil_r].
  rewrite (process_upload_sanitized h l df now rl w Hl Hd).
  rewrite (absent_from_nil _ Hreq).
  destruct (Z.leb_spec (Z.of_nat (List.length (index df))) 100); [|lia].
  unfold call_serve_api. rewrite (wrapper_let_through _ _ _ _ _ Hroom).
  rewrite (call_serve_api_func_unprepared SERVING_API key_data endpoint
             prepare_raises _ _ InvalidJSONError
             (or_intror (conj Hprep (sanitized_payload_error df Hwf Hfin)))).
  reflexivity.
Qed.

End Uploaded.

(** ** The further properties on the sample uploads *)

Lemma eviction_splits_at_the_window_witness :
  exists gone,
    [0%Q; 10%Q; 70%Q] = (gone ++ RateLimiter.evict 75%Q 60 [0%Q; 10%Q; 70%Q])%list
    /\ Forall (fun c => inject_Z 60 <= 75 - c)%Q gone
    /\ Forall (fun c => 75 - c < inject_Z 60)%Q
         (RateLimiter.evict 75%Q 60 [0%Q; 10%Q; 70%Q]).
Proof.
  apply (eviction_splits_at_the_window 75%Q 60 [0%Q; 10%Q; 70%Q]).
  repeat constructor; unfold Qle; simpl; lia.
Defined.

Lemma never_more_than_max_calls_in_a_window_witness :
  (Z.of_nat (within_window 50%Q 60
               (admitted_in_run (RateLimiter.init 2 60)
                  ([0%Q; 10%Q; 20%Q] ++ [50%Q])))
   <= Z.max 0 2)%Z.
Proof.
  apply (never_more_than_max_calls_in_a_window 2 60 [0%Q; 10%Q; 20%Q] 50%Q).
  repeat constructor; unfold Qle; simpl; lia.
Defined.

Lemma fresh_limiter_lets_first_calls_through_witness :
  RateLimiter.wrapper logging_func
    (run_attempts (RateLimiter.init 2 60) [30%Q]) 10%Q 7%nat []
  = (fst (logging_func 7%nat []),
     RateLimiter.mk 2 60
       (RateLimiter.evict 10%Q 60
          (RateLimiter.calls (run_attempts (RateLimiter.init 2 60) [30%Q]))
        ++ [10%Q]),
     snd (logging_func 7%nat [])).
Proof.
  apply (fresh_limiter_lets_first_calls_through logging_func 2 60 [30%Q] 10%Q
           7%nat []).
  simpl. lia.
Defined.

Lemma validate_port_accepts_only_the_range_witness :
  isinstance_int_float (VFloat (FFin (161 # 2))) = true
  /\ exists q, number (VFloat (FFin (161 # 2))) = Some (FFin q)
       /\ (0 <= q)%Q /\ (q <= 65535)%Q.
Proof.
  apply (proj1 validate_port_accepts_only_the_range (VFloat (FFin (161 # 2)))).
  reflexivity.
Defined.

Lemma validate_numeric_accepts_the_nonnegative_witness :
  validate_numeric (VInt 443) = true.
Proof.
  apply (proj2 (proj2 (proj2 (proj2 (proj2 (proj2
           validate_numeric_accepts_the_nonnegative))))) (VInt 443)).
  reflexivity.
Defined.

Lemma strip_tags_removes_the_span_witness :
  Text.strip_tags
    ("x" ++ String Text.lt_sign ("script" ++ String Text.gt_sign "alert(1)"))%string
  = ("x" ++ Text.strip_tags "alert(1)")%string.
Proof.
  apply (strip_tags_removes_the_span "x" "script" "alert(1)"); reflexivity.
Defined.

Lemma strip_tags_changes_only_tagged_text_witness :
  (String.length (Text.strip_tags "<b>bold</b>") + 2
   <= String.length "<b>bold</b>")%nat.
Proof.
  apply (proj1 (proj2 (proj2
           (strip_tags_changes_only_tagged_text "<b>bold</b>")))).
  reflexivity.
Defined.

Lemma normalize_ignores_case_and_padding_witness :
  Text.normalize (" " ++ "Src_IP" ++ " ")%string = Text.normalize "src_ip".
Proof.
  apply (normalize_ignores_case_and_padding " " "Src_IP" " " "src_ip");
    reflexivity.
Defined.

Lemma sanitize_keeps_shape_and_numbers_witness :
  exists df',
    (<[2%positive := sanitized Sample.repr_float Uploads.invalid]>
       (Sample.store_of Uploads.invalid)) !! 2%positive = Some df'
    /\ index df' = index Uploads.invalid
    /\ columns df' = map Text.normalize (columns Uploads.invalid)
    /\ forall (i : nat) n c, series Uploads.invalid !! i = Some (n, c) ->
         is_object c = false -> series df' !! i = Some (Text.normalize n, c).
Proof.
  apply (sanitize_keeps_shape_and_numbers Sample.repr_float
           Sample.ip_address_parses Sample.strptime_parses
           (Sample.store_of Uploads.invalid) _ Sample.place Uploads.invalid
           2%positive
           ["Invalid source IP at row 1: 999.999.999.999"%string;
            "Invalid destination IP at row 1: not-an-ip"%string;
            "Invalid source port at row 1: -1"%string;
            "Invalid destination port at row 1: 65536"%string;
            "Invalid timestamp at row 1: 13/01/2024"%string;
            "Invalid fwd_bytes at row 1: -20"%string]).
  - reflexivity.
  - vm_compute. reflexivity.
Defined.

Lemma frame_without_rows_has_no_errors_witness :
  @nil string = []
  /\ exists df',
       (<[2%positive := sanitized Sample.repr_float Uploads.header_only]>
          (Sample.store_of Uploads.header_only)) !! 2%positive = Some df'
       /\ index df' = [].
Proof.
  apply (frame_without_rows_has_no_errors Sample.repr_float
           Sample.ip_address_parses Sample.strptime_parses
           (Sample.store_of Uploads.header_only) _ Sample.place
           Uploads.header_only 2%positive []).
  - reflexivity.
  - reflexivity.
  - vm_compute. reflexivity.
Defined.

Lemma at_most_ten_errors_per_row_witness :
  (List.length
     ["Invalid source IP at row 1: 999.999.999.999"%string;
      "Invalid destination IP at row 1: not-an-ip"%string;
      "Invalid source port at row 1: -1"%string;
      "Invalid destination port at row 1: 65536"%string;
      "Invalid timestamp at row 1: 13/01/2024"%string;
      "Invalid fwd_bytes at row 1: -20"%string]
   <= 10 * List.length (index Uploads.invalid))%nat.
Proof.
  apply (at_most_ten_errors_per_row Sample.repr_float
           Sample.ip_address_parses Sample.strptime_parses
           (Sample.store_of Uploads.invalid)
           (<[2%positive := sanitized Sample.repr_float Uploads.invalid]>
              (Sample.store_of Uploads.invalid))
           Sample.place Uploads.invalid 2%positive).
  - reflexivity.
  - vm_compute. reflexivity.
Defined.

Lemma invalid_rows_do_not_stop_the_upload_witness :
  exists pg rl' w',
    Uploads.process_with Sample.endpoint api_rate_limiter Uploads.invalid 0%Q
    = Some (pg,
            mkState (<[fresh (dom (Sample.store_of Uploads.invalid))
                       := sanitized Sample.repr_float Uploads.invalid]>
                       (Sample.store_of Uploads.invalid)) rl' w')
    /\ RateLimiter.calls rl' = [0%Q]
    /\ posts w'
       = [request_for (Some "https://serving.example/classify"%string)
                            (Some "secret"%string)
            (OList (to_dict_records
                      (sanitized Sample.repr_float Uploads.invalid)))]
    /\ List.length (to_dict_records (sanitized Sample.repr_float Uploads.invalid))
       = 2%nat.
Proof.
  apply (invalid_rows_do_not_stop_the_upload Sample.repr_float
           Sample.ip_address_parses Sample.strptime_parses
           (Some "https://serving.example/classify"%string)
           (Some "secret"%string) Sample.endpoint
           Sample.prepare_raises Sample.read_json_raises (Sample.store_of Uploads.invalid) Sample.place
           Uploads.invalid 0%Q api_rate_limiter []).
  - reflexivity.
  - vm_compute. reflexivity.
  - apply required_in_labels. vm_compute. reflexivity.
  - simpl. lia.
  - vm_compute. reflexivity.
  - reflexivity.
  - reflexivity.
Defined.

Lemma missing_column_stops_before_the_gateway_witness :
  Sample.process Sample.upload_without_dest_port 0%Q
  = Some (MissingColumns,
          mkState (<[fresh (dom (Sample.store_of Sample.upload_without_dest_port))
                     := sanitized Sample.repr_float Sample.upload_without_dest_port]>
                     (Sample.store_of Sample.upload_without_dest_port))
            api_rate_limiter
            ([] ++ [StError ("Missing columns: "
                       ++ join ", " (absent_from
                            (map Text.normalize
                               (columns Sample.upload_without_dest_port))))%string]))
  /\ In "dest_port"%string
       (absent_from (map Text.normalize (columns Sample.upload_without_dest_port)))
  /\ posts ([] ++ [StError ("Missing columns: "
                      ++ join ", " (absent_from
                           (map Text.normalize
                              (columns Sample.upload_without_dest_port))))%string])
     = posts [].
Proof.
  apply (missing_column_stops_before_the_gateway Sample.repr_float
           Sample.ip_address_parses Sample.strptime_parses
           (Some "https://serving.example/classify"%string)
           (Some "secret"%string) Sample.endpoint
           Sample.prepare_raises Sample.read_json_raises (Sample.store_of Sample.upload_without_dest_port)
           Sample.place Sample.upload_without_dest_port 0%Q api_rate_limiter []
           "dest_port"%string).
  - reflexivity.
  - vm_compute. reflexivity.
  - vm_compute. tauto.
  - vm_compute. intros H.
    repeat (destruct H as [H|H]; [discriminate H|]). exact H.
Defined.

Lemma oversized_upload_stops_before_the_gateway_witness :
  Uploads.process_with Sample.endpoint api_rate_limiter (Uploads.zeros 101) 0%Q
  = Some (RowLimitExceeded,
          mkState (<[fresh (dom (Sample.store_of (Uploads.zeros 101)))
                     := sanitized Sample.repr_float (Uploads.zeros 101)]>
                     (Sample.store_of (Uploads.zeros 101)))
            api_rate_limiter
            ([] ++ [StError ("File exceeds the row limit of 100. Your file contains "
                       ++ pretty.pretty (List.length (index (Uploads.zeros 101)))
                       ++ " rows.")%string])).
Proof.
  apply (oversized_upload_stops_before_the_gateway Sample.repr_float
           Sample.ip_address_parses Sample.strptime_parses
           (Some "https://serving.example/classify"%string)
           (Some "secret"%string) Sample.endpoint
           Sample.prepare_raises Sample.read_json_raises (Sample.store_of (Uploads.zeros 101)) Sample.place
           (Uploads.zeros 101) 0%Q api_rate_limiter []).
  - reflexivity.
  - vm_compute. reflexivity.
  - apply required_in_labels. vm_compute. reflexivity.
  - vm_compute. lia.
Defined.

Lemma rate_limited_upload_raises_witness :
  Uploads.process_with Sample.endpoint Uploads.full_limiter (Uploads.zeros 1) 5%Q
  = Some (Uncaught (Exception "Rate limit exceeded. Please try again later."),
          mkState (<[fresh (dom (Sample.store_of (Uploads.zeros 1)))
                     := sanitized Sample.repr_float (Uploads.zeros 1)]>
                     (Sample.store_of (Uploads.zeros 1)))
            (RateLimiter.mk 2 60 (RateLimiter.evict 5%Q 60 [0%Q; 1%Q]))
            ([] ++ [StSuccess "File contains all required columns and meets the row limit of 100."])).
Proof.
  apply (rate_limited_upload_raises Sample.repr_float
           Sample.ip_address_parses Sample.strptime_parses
           (Some "https://serving.example/classify"%string)
           (Some "secret"%string) Sample.endpoint
           Sample.prepare_raises Sample.read_json_raises (Sample.store_of (Uploads.zeros 1)) Sample.place
           (Uploads.zeros 1) 5%Q Uploads.full_limiter []).
  - reflexivity.
  - vm_compute. reflexivity.
  - apply required_in_labels. vm_compute. reflexivity.
  - simpl. lia.
  - vm_compute. discriminate.
Defined.

Lemma http_error_gives_the_failure_page_witness :
  Uploads.process_with Uploads.busy_endpoint api_rate_limiter (Uploads.zeros 1) 5%Q
  = Some (Failed,
          mkState (<[fresh (dom (Sample.store_of (Uploads.zeros 1)))
                     := sanitized Sample.repr_float (Uploads.zeros 1)]>
                     (Sample.store_of (Uploads.zeros 1)))
            (RateLimiter.mk 100 60 (RateLimiter.evict 5%Q 60 [] ++ [5%Q]))
            ([] ++ [StSuccess "File contains all required columns and meets the row limit of 100.";
                    Post (request_for (Some "https://serving.example/classify"%string)
                            (Some "secret"%string)
                            (OList (to_dict_records
                                      (sanitized Sample.repr_float (Uploads.zeros 1)))));
                    StError ("API Error: " ++ pretty.pretty 503%Z ++ " - "
                             ++ "busy")%string;
                    StError "Failed to get classification results."])).
Proof.
  apply (http_error_gives_the_failure_page Sample.repr_float
           Sample.ip_address_parses Sample.strptime_parses
           (Some "https://serving.example/classify"%string)
           (Some "secret"%string) Uploads.busy_endpoint
           Sample.prepare_raises Sample.read_json_raises (Sample.store_of (Uploads.zeros 1)) Sample.place
           (Uploads.zeros 1) 5%Q api_rate_limiter [] 503%Z "busy"%string None).
  - reflexivity.
  - vm_compute. reflexivity.
  - apply required_in_labels. vm_compute. reflexivity.
  - simpl. lia.
  - vm_compute. reflexivity.
  - reflexivity.
  - reflexivity.
  - reflexivity.
  - lia.
Defined.

Lemma answer_is_shown_only_when_truthy_witness :
  Uploads.process_with Sample.endpoint api_rate_limiter (Uploads.zeros 1) 5%Q
  = Some (Classified (OList [ODict []]),
          mkState (<[fresh (dom (Sample.store_of (Uploads.zeros 1)))
                     := sanitized Sample.repr_float (Uploads.zeros 1)]>
                     (Sample.store_of (Uploads.zeros 1)))
            (RateLimiter.mk 100 60 (RateLimiter.evict 5%Q 60 [] ++ [5%Q]))
            ([] ++ [StSuccess "File contains all required columns and meets the row limit of 100.";
                    Post (request_for (Some "https://serving.example/classify"%string)
                            (Some "secret"%string)
                            (OList (to_dict_records
                                      (sanitized Sample.repr_float (Uploads.zeros 1)))))]
                ++ []))
  /\ truthy (Some (OList [])) = false
  /\ truthy (Some (ODict [])) = false
  /\ truthy (Some (OVal VNone)) = false.
Proof.
  apply (answer_is_shown_only_when_truthy Sample.repr_float
           Sample.ip_address_parses Sample.strptime_parses
           (Some "https://serving.example/classify"%string)
           (Some "secret"%string) Sample.endpoint
           Sample.prepare_raises Sample.read_json_raises
           (Sample.store_of (Uploads.zeros 1)) Sample.place
           (Uploads.zeros 1) 5%Q api_rate_limiter [] 200%Z "[{}]"%string
           (OList [ODict []])).
  - reflexivity.
  - vm_compute. reflexivity.
  - apply required_in_labels. vm_compute. reflexivity.
  - simpl. lia.
  - vm_compute. reflexivity.
  - reflexivity.
  - reflexivity.
  - reflexivity.
  - left. lia.
Defined.

Lemma transport_failure_is_not_caught_witness :
  Uploads.process_with Uploads.unreachable_endpoint api_rate_limiter
    (Uploads.zeros 1) 5%Q
  = Some (Uncaught ConnectionError,
          mkState (<[fresh (dom (Sample.store_of (Uploads.zeros 1)))
                     := sanitized Sample.repr_float (Uploads.zeros 1)]>
                     (Sample.store_of (Uploads.zeros 1)))
            (RateLimiter.mk 100 60 (RateLimiter.evict 5%Q 60 [] ++ [5%Q]))
            ([] ++ [StSuccess "File contains all required columns and meets the row limit of 100.";
                    Post (request_for (Some "https://serving.example/classify"%string)
                            (Some "secret"%string)
                            (OList (to_dict_records
                                      (sanitized Sample.repr_float (Uploads.zeros 1)))))])).
Proof.
  apply (transport_failure_is_not_caught Sample.repr_float
           Sample.ip_address_parses Sample.strptime_parses
           (Some "https://serving.example/classify"%string)
           (Some "secret"%string) Uploads.unreachable_endpoint
           Sample.prepare_raises Sample.read_json_raises (Sample.store_of (Uploads.zeros 1))
           Sample.place (Uploads.zeros 1) 5%Q api_rate_limiter []).
  - reflexivity.
  - vm_compute. reflexivity.
  - apply required_in_labels. vm_compute. reflexivity.
  - simpl. lia.
  - vm_compute. reflexivity.
  - reflexivity.
  - reflexivity.
  - reflexivity.
Defined.

Lemma call_after_a_full_burst_is_rejected_witness :
  run_attempts (RateLimiter.init 2 60) [10%Q; 20%Q] = RateLimiter.mk 2 60 [10%Q; 20%Q]
  /\ RateLimiter.wrapper logging_func (RateLimiter.mk 2 60 [10%Q; 20%Q]) 30%Q 7%nat []
     = (Raised (Exception RateLimiter.rate_limit_message),
        RateLimiter.mk 2 60 [10%Q; 20%Q], []).
Proof.
  apply (call_after_a_full_burst_is_rejected logging_func 2 60 [10%Q; 20%Q] 30%Q
           7%nat []).
  - repeat constructor; unfold Qle, Qlt; simpl; lia.
  - reflexivity.
Defined.

Lemma quiet_window_resets_the_limiter_witness :
  RateLimiter.wrapper logging_func Uploads.full_limiter 61%Q 7%nat []
  = RateLimiter.wrapper logging_func (RateLimiter.init 2 60) 61%Q 7%nat [].
Proof.
  apply (quiet_window_resets_the_limiter logging_func Uploads.full_limiter 61%Q
           7%nat []).
  repeat constructor; unfold Qle; simpl; lia.
Defined.

Lemma nan_cell_raises_before_posting_witness :
  Uploads.process_with Sample.endpoint api_rate_limiter Uploads.with_gap 5%Q
  = Some (Uncaught InvalidJSONError,
          mkState (<[fresh (dom (Sample.store_of Uploads.with_gap))
                     := sanitized Sample.repr_float Uploads.with_gap]>
                     (Sample.store_of Uploads.with_gap))
            (RateLimiter.mk 100 60 (RateLimiter.evict 5%Q 60 [] ++ [5%Q]))
            ([] ++ [StSuccess "File contains all required columns and meets the row limit of 100."]))
  /\ posts ([] ++ [StSuccess "File contains all required columns and meets the row limit of 100."])
     = posts [].
Proof.
  apply (nan_cell_raises_before_posting Sample.repr_float
           Sample.ip_address_parses Sample.strptime_parses
           (Some "https://serving.example/classify"%string)
           (Some "secret"%string) Sample.endpoint
           Sample.prepare_raises Sample.read_json_raises
           (Sample.store_of Uploads.with_gap) Sample.place
           Uploads.with_gap 5%Q api_rate_limiter []).
  - reflexivity.
  - vm_compute. reflexivity.
  - apply required_in_labels. vm_compute. reflexivity.
  - simpl. lia.
  - vm_compute. reflexivity.
  - reflexivity.
  - unfold well_formed. simpl. repeat constructor.
  - reflexivity.
Defined.
